(** * FarmaSathi backend: query lifecycle and WebSocket connection manager

    A shallow embedding of
      - [app/models/query.py], [app/models/notification.py]  (the data model),
      - [app/database.py]                                    (collection handles),
      - [app/routes/queries.py]                              (submit / assign / reply / statistics),
      - [app/routes/websocket.py]                            (the [ConnectionManager]
                                                              and the notification endpoint),
      - [app/models/user.py], [app/routes/auth.py]           (accounts),
    followed by the properties of these routines.

    Python dictionaries are finite maps ([gmap]); a MongoDB collection is a
    finite map from [_id] to document; coroutines are run to completion, one
    after the other, as functions in a state-and-exception monad. *)

From Stdlib Require Import ZArith QArith Qround Lqa Ascii String.
From stdpp Require Import gmap strings list fin_maps sorting pretty.

Local Open Scope string_scope.
Local Open Scope Z_scope.

(* ===================================================================== *)
(** ** Exceptions and the state-and-exception monad *)
(* ===================================================================== *)

(** The exceptions that the modelled routines raise or let escape. *)
Inductive Exn : Type :=
  | HTTPException (status_code : Z) (detail : string)
  | RequestValidationError      (* FastAPI: the request body fails its model *)
  | ValidationError             (* pydantic: a model is built from bad data  *)
  | AttributeError              (* a method called on [None]                 *)
  | ValueError                  (* [list.remove(x)]: x not in list           *)
  | KeyError                    (* [d[k]]: k not in the dictionary           *)
  | InvalidId                   (* [bson.ObjectId(s)]: s is not an id        *)
  | DuplicateKeyError           (* [insert_one]: the [_id] is taken          *)
  | SendFailure.                (* [websocket.send_json] on a dead channel   *)

Inductive Result (A : Type) : Type :=
  | Ok (a : A)
  | Raise (e : Exn).
Arguments Ok {A} a.
Arguments Raise {A} e.

(** A computation over a mutable state [S]: it returns or raises, and in
    both cases leaves a state behind (Python has no roll-back). *)
Definition M (S A : Type) : Type := S -> Result A * S.

Definition ret {S A} (a : A) : M S A := fun s => (Ok a, s).

Definition raise {S A} (e : Exn) : M S A := fun s => (Raise e, s).

Definition bind {S A B} (m : M S A) (k : A -> M S B) : M S B :=
  fun s =>
    match m s with
    | (Ok a, s') => k a s'
    | (Raise e, s') => (Raise e, s')
    end.

(** [try: body  except: handler]  (a bare [except:], which catches all). *)
Definition try_except {S A} (body : M S A) (handler : Exn -> M S A) : M S A :=
  fun s =>
    match body s with
    | (Ok a, s') => (Ok a, s')
    | (Raise e, s') => handler e s'
    end.

Definition get {S} : M S S := fun s => (Ok s, s).
Definition put {S} (s : S) : M S unit := fun _ => (Ok tt, s).

Declare Scope py_scope.
Delimit Scope py_scope with py.
Notation "x <- c1 ;; c2" := (bind c1 (fun x => c2))
  (at level 100, c1 at next level, right associativity) : py_scope.
Notation "c1 ;; c2" := (bind c1 (fun _ => c2))
  (at level 100, right associativity) : py_scope.
Local Open Scope py_scope.

(** [for x in xs: body x] *)
Fixpoint for_each {S A} (xs : list A) (body : A -> M S unit) : M S unit :=
  match xs with
  | [] => ret tt
  | x :: xs' => body x ;; for_each xs' body
  end.

(** The HTTP status a client sees: FastAPI renders an [HTTPException] with
    its own code, a request that fails validation as 422, and
    [global_exception_handler] in [app/main.py] turns anything else into 500. *)
Definition http_status {A} (success : Z) (r : Result A) : Z :=
  match r with
  | Ok _ => success
  | Raise (HTTPException c _) => c
  | Raise RequestValidationError => 422
  | Raise _ => 500
  end.

Definition HTTP_201_CREATED : Z := 201.
Definition HTTP_400_BAD_REQUEST : Z := 400.
Definition HTTP_404_NOT_FOUND : Z := 404.

(* ===================================================================== *)
(** ** Data model: [app/models/query.py], [app/models/notification.py] *)
(* ===================================================================== *)

Inductive QueryStatus : Type := OPEN | ASSIGNED | RESOLVED | CLOSED.
Inductive QueryUrgency : Type := NORMAL | HIGH | URGENT.
Inductive QueryCategory : Type :=
  PEST | DISEASE | NUTRIENT | WEATHER | MARKET | GENERAL.

#[global] Instance QueryStatus_eq_dec : EqDecision QueryStatus.
Proof. solve_decision. Defined.
#[global] Instance QueryUrgency_eq_dec : EqDecision QueryUrgency.
Proof. solve_decision. Defined.

(** The string value of a [str]-mixin enumeration member. *)
Definition QueryStatus_value (s : QueryStatus) : string :=
  match s with
  | OPEN => "open" | ASSIGNED => "assigned"
  | RESOLVED => "resolved" | CLOSED => "closed"
  end.

Definition QueryUrgency_value (u : QueryUrgency) : string :=
  match u with NORMAL => "normal" | HIGH => "high" | URGENT => "urgent" end.

Inductive NotificationType : Type :=
  QUERY_SUBMITTED | QUERY_ASSIGNED | QUERY_REPLIED | QUERY_RESOLVED | SYSTEM.

#[global] Instance NotificationType_eq_dec : EqDecision NotificationType.
Proof. solve_decision. Defined.

(** [datetime] values, as a count of time units. *)
Definition datetime : Type := Z.

(** [len(s)] and the [min_length] constraint of a pydantic [Field]. *)
Definition len (s : string) : Z := Z.of_nat (String.length s).

Definition min_length (n : Z) (s : string) : bool := n <=? len s.

(** [QueryCreate(QueryBase)]: the body of a submit request.  The record
    holds the fields as the client sent them; [QueryCreate_valid] is the
    check pydantic runs before the route is entered. *)
Record QueryCreate : Type := {
  qc_farmer_name : string;
  qc_farmer_id   : string;
  qc_location    : option string;
  qc_crop_type   : option string;
  qc_query_text  : string;                 (* Field(..., min_length=10) *)
  qc_category    : QueryCategory;
  qc_urgency     : QueryUrgency;
  qc_image_path  : option string;
  qc_audio_path  : option string
}.

Definition QueryCreate_valid (q : QueryCreate) : bool :=
  min_length 10 (qc_query_text q).

(** [OfficerReply]: the body of a reply request. *)
Record OfficerReply : Type := {
  query_id      : string;
  reply_text    : string;                  (* Field(..., min_length=20) *)
  mark_resolved : bool
}.

Definition OfficerReply_valid (r : OfficerReply) : bool :=
  min_length 20 (reply_text r).

(** A document of the [queries] collection, without its [_id] (the key it
    is stored under).  [updated_at] and [reply] are absent until an update
    sets them; an absent key and [None] both read as [None]. *)
Record QueryDoc : Type := {
  farmer_name  : string;
  farmer_id    : string;
  location     : option string;
  crop_type    : option string;
  query_text   : string;
  category     : QueryCategory;
  urgency      : QueryUrgency;
  image_path   : option string;
  audio_path   : option string;
  status       : QueryStatus;
  created_at   : datetime;
  assigned_to  : option string;
  officer_name : option string;
  updated_at   : option datetime;
  reply        : option string
}.

(** [QueryResponse(QueryBase)]: what a route returns. *)
Record QueryResponse : Type := {
  r_id           : string;
  r_farmer_name  : string;
  r_farmer_id    : string;
  r_location     : option string;
  r_crop_type    : option string;
  r_query_text   : string;
  r_category     : QueryCategory;
  r_urgency      : QueryUrgency;
  r_image_path   : option string;
  r_audio_path   : option string;
  r_status       : QueryStatus;
  r_assigned_to  : option string;
  r_officer_name : option string;
  r_created_at   : datetime;
  r_updated_at   : option datetime;
  r_ai_analysis  : option string;
  r_reply        : option string
}.

(** Building a [QueryResponse] runs the validators it inherits from
    [QueryBase]: a [query_text] under 10 characters raises. *)
Definition QueryResponse_new {S} (r : QueryResponse) : M S QueryResponse :=
  if min_length 10 (r_query_text r) then ret r else raise ValidationError.

(** A document of the [notifications] collection, without its [_id]. *)
Record NotificationDoc : Type := {
  n_user_id           : string;
  n_title             : string;
  n_message           : string;
  n_notification_type : NotificationType;
  n_query_id          : string;
  n_created_at        : datetime;
  n_read              : bool
}.

(** The authenticated caller, as [get_current_user] and
    [require_officer_role] hand it to a route. *)
Record CurrentUser : Type := {
  user_id : string;
  role    : string
}.

(* ===================================================================== *)
(** ** The document store: [app/database.py] *)
(* ===================================================================== *)

(** The two collections of the database the routes below touch, each a
    finite map from [_id] (the 24 hex digits of an [ObjectId]) to document. *)
Record MongoDB : Type := {
  queries       : gmap string QueryDoc;
  notifications : gmap string NotificationDoc
}.

(** [class Database]: [client] is [None] until [connect_to_mongo] sets it;
    [mock_queries] is the list declared next to [mock_users] as
    "in-memory storage when MongoDB unavailable". *)
Record Database : Type := {
  client       : option MongoDB;
  mock_queries : list QueryDoc
}.

(** What a request draws from its environment: the successive readings of
    [datetime.utcnow()] and the [ObjectId]s the driver generates for the
    documents it inserts. *)
Record Env : Type := {
  utcnow_1st           : datetime;
  utcnow_2nd           : datetime;
  new_query_oid        : string;
  new_notification_oid : string
}.

(** Handles, as [db.queries] and [db.notifications] return them. *)
Inductive AsyncIOMotorDatabase : Type := the_database.
Inductive QueriesCollection : Type := db_queries.
Inductive NotificationsCollection : Type := db_notifications.

Definition get_database : M Database (option AsyncIOMotorDatabase) :=
  database <- get ;;
  match client database with
  | None => ret None
  | Some _ => ret (Some the_database)
  end.

Definition get_queries_collection : M Database (option QueriesCollection) :=
  db <- get_database ;;
  match db with
  | None => ret None
  | Some _ => ret (Some db_queries)
  end.

Definition get_notifications_collection
  : M Database (option NotificationsCollection) :=
  db <- get_database ;;
  match db with
  | None => ret None
  | Some _ => ret (Some db_notifications)
  end.

(** A method call on a handle: on [None] it is an [AttributeError];
    otherwise [f] runs against the server's data. *)
Definition call_method {H A} (handle : option H)
    (f : MongoDB -> Result A * MongoDB) : M Database A :=
  fun database =>
    match handle, client database with
    | Some _, Some mongo =>
        let (r, mongo') := f mongo in
        (r, {| client := Some mongo'; mock_queries := mock_queries database |})
    | _, _ => (Raise AttributeError, database)
    end.

(** [bson.ObjectId(s)]: [s] must be 24 hexadecimal digits; the id it
    denotes prints in lower case. *)
Definition is_hex_digit (c : ascii) : bool :=
  let n := nat_of_ascii c in
  ((48 <=? n) && (n <=? 57) || (97 <=? n) && (n <=? 102)
   || (65 <=? n) && (n <=? 70))%nat.

Definition lower_hex (c : ascii) : ascii :=
  let n := nat_of_ascii c in
  if ((65 <=? n) && (n <=? 70))%nat then ascii_of_nat (n + 32) else c.

Fixpoint string_forallb (p : ascii -> bool) (s : string) : bool :=
  match s with
  | EmptyString => true
  | String c s' => p c && string_forallb p s'
  end.

Fixpoint string_map (f : ascii -> ascii) (s : string) : string :=
  match s with
  | EmptyString => EmptyString
  | String c s' => String (f c) (string_map f s')
  end.

Definition ObjectId_parse (s : string) : option string :=
  if (String.length s =? 24)%nat && string_forallb is_hex_digit s
  then Some (string_map lower_hex s)
  else None.

Definition ObjectId {S} (s : string) : M S string :=
  match ObjectId_parse s with
  | Some oid => ret oid
  | None => raise InvalidId
  end.

(** [collection.insert_one(doc)], the driver having generated [oid]. *)
Definition queries_insert_one (coll : option QueriesCollection)
    (oid : string) (doc : QueryDoc) : M Database string :=
  call_method coll (fun mongo =>
    match queries mongo !! oid with
    | Some _ => (Raise DuplicateKeyError, mongo)
    | None =>
        (Ok oid, {| queries := <[oid := doc]> (queries mongo);
                    notifications := notifications mongo |})
    end).

Definition notifications_insert_one (coll : option NotificationsCollection)
    (oid : string) (doc : NotificationDoc) : M Database string :=
  call_method coll (fun mongo =>
    match notifications mongo !! oid with
    | Some _ => (Raise DuplicateKeyError, mongo)
    | None =>
        (Ok oid, {| queries := queries mongo;
                    notifications := <[oid := doc]> (notifications mongo) |})
    end).

(** [collection.find_one_and_update({"_id": oid}, {"$set": ...},
    return_document=True)]: the document under [oid], if there is one, is
    rewritten by [set] and returned as rewritten, with its [_id]. *)
Definition find_one_and_update (coll : option QueriesCollection)
    (oid : string) (set : QueryDoc -> QueryDoc)
  : M Database (option (string * QueryDoc)) :=
  call_method coll (fun mongo =>
    match queries mongo !! oid with
    | None => (Ok None, mongo)
    | Some doc =>
        (Ok (Some (oid, set doc)),
         {| queries := <[oid := set doc]> (queries mongo);
            notifications := notifications mongo |})
    end).

(** [collection.count_documents(filter)] *)
Definition count_documents (coll : option QueriesCollection)
    (matches : QueryDoc -> bool) : M Database Z :=
  call_method coll (fun mongo =>
    (Ok (Z.of_nat
           (size (filter (fun kv : string * QueryDoc => matches kv.2 = true)
                         (queries mongo)))),
     mongo)).

(* ===================================================================== *)
(** ** The query routes: [app/routes/queries.py] *)
(* ===================================================================== *)

(** [QueryResponse(id=..., **{k: v for k, v in doc.items() if k != "_id"})] *)
Definition response_of_doc (id : string) (doc : QueryDoc) : QueryResponse :=
  {| r_id := id;
     r_farmer_name := farmer_name doc;
     r_farmer_id := farmer_id doc;
     r_location := location doc;
     r_crop_type := crop_type doc;
     r_query_text := query_text doc;
     r_category := category doc;
     r_urgency := urgency doc;
     r_image_path := image_path doc;
     r_audio_path := audio_path doc;
     r_status := status doc;
     r_assigned_to := assigned_to doc;
     r_officer_name := officer_name doc;
     r_created_at := created_at doc;
     r_updated_at := updated_at doc;
     r_ai_analysis := None;
     r_reply := reply doc |}.

(** [submit_query(query, current_user)] *)
Definition submit_query (env : Env) (query : QueryCreate)
    (current_user : CurrentUser) : M Database QueryResponse :=
  queries_collection <- get_queries_collection ;;
  (* {**query.dict(), "farmer_id": current_user["user_id"], ...} *)
  let query_doc :=
    {| farmer_name := qc_farmer_name query;
       farmer_id := user_id current_user;
       location := qc_location query;
       crop_type := qc_crop_type query;
       query_text := qc_query_text query;
       category := qc_category query;
       urgency := qc_urgency query;
       image_path := qc_image_path query;
       audio_path := qc_audio_path query;
       status := OPEN;
       created_at := utcnow_1st env;
       assigned_to := None;
       officer_name := None;
       updated_at := None;
       reply := None |} in
  inserted_id <- queries_insert_one queries_collection
                   (new_query_oid env) query_doc ;;
  let query_id := inserted_id in
  notifications_collection <- get_notifications_collection ;;
  let notification :=
    {| n_user_id := "all_officers";
       n_title := "New Query Submitted";
       n_message := "New " ++ QueryUrgency_value (qc_urgency query)
                    ++ " query from " ++ qc_farmer_name query;
       n_notification_type := QUERY_SUBMITTED;
       n_query_id := query_id;
       n_created_at := utcnow_2nd env;
       n_read := false |} in
  notifications_insert_one notifications_collection
    (new_notification_oid env) notification ;;
  (* QueryResponse(id=query_id, **query.dict(), status=..., created_at=...) *)
  QueryResponse_new
    {| r_id := query_id;
       r_farmer_name := qc_farmer_name query;
       r_farmer_id := qc_farmer_id query;
       r_location := qc_location query;
       r_crop_type := qc_crop_type query;
       r_query_text := qc_query_text query;
       r_category := qc_category query;
       r_urgency := qc_urgency query;
       r_image_path := qc_image_path query;
       r_audio_path := qc_audio_path query;
       r_status := OPEN;
       r_assigned_to := None;
       r_officer_name := None;
       r_created_at := created_at query_doc;
       r_updated_at := None;
       r_ai_analysis := None;
       r_reply := None |}.

(** [POST /api/queries/submit]: the body is checked against [QueryCreate]
    before [submit_query] is entered. *)
Definition post_submit (env : Env) (body : QueryCreate)
    (current_user : CurrentUser) : M Database QueryResponse :=
  if QueryCreate_valid body then submit_query env body current_user
  else raise RequestValidationError.

(** The [$set] of [assign_query]. *)
Definition assign_set (officer : string) (now : datetime) (doc : QueryDoc)
  : QueryDoc :=
  {| farmer_name := farmer_name doc;
     farmer_id := farmer_id doc;
     location := location doc;
     crop_type := crop_type doc;
     query_text := query_text doc;
     category := category doc;
     urgency := urgency doc;
     image_path := image_path doc;
     audio_path := audio_path doc;
     status := ASSIGNED;
     created_at := created_at doc;
     assigned_to := Some officer;
     officer_name := officer_name doc;
     updated_at := Some now;
     reply := reply doc |}.

(** [assign_query(query_id, current_user)] *)
Definition assign_query (env : Env) (query_id : string)
    (current_user : CurrentUser) : M Database QueryResponse :=
  queries_collection <- get_queries_collection ;;
  result <-
    try_except
      (oid <- ObjectId query_id ;;
       find_one_and_update queries_collection oid
         (assign_set (user_id current_user) (utcnow_1st env)))
      (fun _ => raise (HTTPException HTTP_400_BAD_REQUEST "Invalid query ID")) ;;
  match result with
  | None => raise (HTTPException HTTP_404_NOT_FOUND "Query not found")
  | Some (_id, result) =>
      notifications_collection <- get_notifications_collection ;;
      let notification :=
        {| n_user_id := farmer_id result;
           n_title := "Query Assigned";
           n_message := "Your query has been assigned to an officer";
           n_notification_type := QUERY_ASSIGNED;
           n_query_id := query_id;
           n_created_at := utcnow_2nd env;
           n_read := false |} in
      notifications_insert_one notifications_collection
        (new_notification_oid env) notification ;;
      QueryResponse_new (response_of_doc _id result)
  end.

(** The [$set] of [reply_to_query]: [update_data], with ["status"] in it
    only when [mark_resolved] is set. *)
Definition reply_set (r : OfficerReply) (now : datetime) (doc : QueryDoc)
  : QueryDoc :=
  {| farmer_name := farmer_name doc;
     farmer_id := farmer_id doc;
     location := location doc;
     crop_type := crop_type doc;
     query_text := query_text doc;
     category := category doc;
     urgency := urgency doc;
     image_path := image_path doc;
     audio_path := audio_path doc;
     status := if mark_resolved r then RESOLVED else status doc;
     created_at := created_at doc;
     assigned_to := assigned_to doc;
     officer_name := officer_name doc;
     updated_at := Some now;
     reply := Some (reply_text r) |}.

(** [reply_to_query(query_id, reply, current_user)] *)
Definition reply_to_query (env : Env) (query_id : string)
    (reply : OfficerReply) (current_user : CurrentUser)
  : M Database QueryResponse :=
  queries_collection <- get_queries_collection ;;
  let update_data := reply_set reply (utcnow_1st env) in
  result <-
    try_except
      (oid <- ObjectId query_id ;;
       find_one_and_update queries_collection oid update_data)
      (fun _ => raise (HTTPException HTTP_400_BAD_REQUEST "Invalid query ID")) ;;
  match result with
  | None => raise (HTTPException HTTP_404_NOT_FOUND "Query not found")
  | Some (_id, result) =>
      notifications_collection <- get_notifications_collection ;;
      let notification :=
        {| n_user_id := farmer_id result;
           n_title := if negb (mark_resolved reply)
                      then "Officer Replied" else "Query Resolved";
           n_message := "An agricultural officer has responded to your query";
           n_notification_type := if negb (mark_resolved reply)
                                  then QUERY_REPLIED else QUERY_RESOLVED;
           n_query_id := query_id;
           n_created_at := utcnow_2nd env;
           n_read := false |} in
      notifications_insert_one notifications_collection
        (new_notification_oid env) notification ;;
      QueryResponse_new (response_of_doc _id result)
  end.

(** [POST /api/queries/{query_id}/reply]: the body is checked against
    [OfficerReply] before [reply_to_query] is entered. *)
Definition post_reply (env : Env) (query_id : string) (body : OfficerReply)
    (current_user : CurrentUser) : M Database QueryResponse :=
  if OfficerReply_valid body then reply_to_query env query_id body current_user
  else raise RequestValidationError.

(** *** Statistics *)

(** Python's [float] is idealised as an exact rational: [/] is exact
    division and [round(x, ndigits)] rounds to the nearest multiple of
    [10^-ndigits], a tie going to the even one. *)
Definition round_half_even (x : Q) : Z :=
  let f := Qfloor x in
  match ((x - inject_Z f) ?= 1 # 2)%Q with
  | Lt => f
  | Gt => f + 1
  | Eq => if Z.even f then f else f + 1
  end.

Definition round (x : Q) (ndigits : Z) : Q :=
  let scale := inject_Z (10 ^ ndigits) in
  Qred (inject_Z (round_half_even (x * scale)) / scale).

(** The dictionary [get_statistics] returns. *)
Record Statistics : Type := {
  total           : Z;
  open            : Z;
  assigned        : Z;
  resolved        : Z;
  urgent          : Z;
  resolution_rate : Q
}.

(** [get_statistics(current_user)] *)
Definition get_statistics (current_user : CurrentUser)
  : M Database Statistics :=
  queries_collection <- get_queries_collection ;;
  total <- count_documents queries_collection (fun _ => true) ;;
  open_count <- count_documents queries_collection
                  (fun d => bool_decide (status d = OPEN)) ;;
  assigned <- count_documents queries_collection
                (fun d => bool_decide (status d = ASSIGNED)) ;;
  resolved <- count_documents queries_collection
                (fun d => bool_decide (status d = RESOLVED)) ;;
  urgent <- count_documents queries_collection
              (fun d => bool_decide (urgency d = HIGH)
                        && negb (bool_decide (status d = RESOLVED))) ;;
  ret {| total := total;
         open := open_count;
         assigned := assigned;
         resolved := resolved;
         urgent := urgent;
         resolution_rate :=
           round (if 0 <? total
                  then (inject_Z resolved / inject_Z total * 100)%Q
                  else 0%Q) 2 |}.

(* ===================================================================== *)
(** ** The connection manager: [app/routes/websocket.py] *)
(* ===================================================================== *)

(** A [WebSocket] object, by identity. *)
Definition WebSocket : Type := nat.

(** A JSON message: the dictionaries the module sends all have a ["type"]
    and, for notifications, a ["data"] payload. *)
Record Message : Type := {
  msg_type : string;
  msg_data : string
}.

(** The module-level [manager] and the sockets it talks to:
    [active_connections] is the manager's dictionary; [closed] are the
    sockets whose peer is gone, on which [send_json] raises; [outbox] is
    what has been sent, oldest first. *)
Record World : Type := {
  active_connections : gmap string (list WebSocket);
  closed             : gset WebSocket;
  outbox             : list (WebSocket * Message)
}.

Definition set_active_connections (d : gmap string (list WebSocket))
  : M World unit :=
  fun w => (Ok tt, {| active_connections := d;
                      closed := closed w;
                      outbox := outbox w |}).

(** [await websocket.accept()] *)
Definition accept (websocket : WebSocket) : M World unit := ret tt.

(** [await websocket.send_json(message)] *)
Definition send_json (websocket : WebSocket) (message : Message)
  : M World unit :=
  fun w =>
    if decide (websocket ∈ closed w) then (Raise SendFailure, w)
    else (Ok tt, {| active_connections := active_connections w;
                    closed := closed w;
                    outbox := (outbox w ++ [(websocket, message)])%list |}).

(** [l.remove(x)]: drops the first occurrence of [x]; [ValueError] when
    there is none. *)
Fixpoint list_remove (x : WebSocket) (l : list WebSocket)
  : option (list WebSocket) :=
  match l with
  | [] => None
  | y :: l' =>
      if decide (x = y) then Some l'
      else match list_remove x l' with
           | Some r => Some (y :: r)
           | None => None
           end
  end.

(** [ConnectionManager.connect(websocket, user_id)] *)
Definition connect (websocket : WebSocket) (user_id : string)
  : M World unit :=
  accept websocket ;;
  self <- get ;;
  (if decide (is_Some (active_connections self !! user_id)) then ret tt
   else set_active_connections (<[user_id := []]> (active_connections self))) ;;
  self <- get ;;
  match active_connections self !! user_id with
  | Some conns =>
      set_active_connections
        (<[user_id := (conns ++ [websocket])%list]> (active_connections self))
  | None => raise KeyError
  end.

(** [ConnectionManager.disconnect(websocket, user_id)] *)
Definition disconnect (websocket : WebSocket) (user_id : string)
  : M World unit :=
  self <- get ;;
  match active_connections self !! user_id with
  | Some conns =>
      match list_remove websocket conns with
      | None => raise ValueError
      | Some conns' =>
          set_active_connections
            (<[user_id := conns']> (active_connections self)) ;;
          self <- get ;;
          match active_connections self !! user_id with
          | Some [] =>
              set_active_connections (delete user_id (active_connections self))
          | Some _ => ret tt
          | None => raise KeyError
          end
      end
  | None => ret tt
  end.

(** [try: await connection.send_json(message)  except: pass] *)
Definition try_send (connection : WebSocket) (message : Message)
  : M World unit :=
  try_except (send_json connection message) (fun _ => ret tt).

(** [ConnectionManager.send_personal_message(message, user_id)] *)
Definition send_personal_message (message : Message) (user_id : string)
  : M World unit :=
  self <- get ;;
  match active_connections self !! user_id with
  | Some conns => for_each conns (fun connection => try_send connection message)
  | None => ret tt
  end.

(** [user_id.startswith("officer_")] *)
Definition startswith (s p : string) : bool := String.prefix p s.

(** [ConnectionManager.broadcast_to_officers(message)].  The dictionary is
    walked in the order of [map_to_list], which need not be Python's
    insertion order; nothing below depends on the order across users. *)
Definition broadcast_to_officers (message : Message) : M World unit :=
  self <- get ;;
  for_each (map_to_list (active_connections self))
    (fun '(user_id, connections) =>
       if startswith user_id "officer_"
       then for_each connections
              (fun connection => try_send connection message)
       else ret tt).

(** [ConnectionManager.broadcast(message)] *)
Definition broadcast (message : Message) : M World unit :=
  self <- get ;;
  for_each (map_to_list (active_connections self))
    (fun '(user_id, connections) =>
       for_each connections (fun connection => try_send connection message)).

(** [send_notification(user_id, notification)] *)
Definition send_notification (user_id : string) (notification : string)
  : M World unit :=
  send_personal_message
    {| msg_type := "notification"; msg_data := notification |} user_id.

(** [notify_new_query(query_data)] *)
Definition notify_new_query (query_data : string) : M World unit :=
  broadcast_to_officers {| msg_type := "new_query"; msg_data := query_data |}.

(* ===================================================================== *)
(** ** Vocabulary of the statements *)
(* ===================================================================== *)

(** *** Query routes *)

(** The database with the server's data replaced by [mongo]. *)
Definition with_mongo (database : Database) (mongo : MongoDB) : Database :=
  {| client := Some mongo; mock_queries := mock_queries database |}.

(** What the store holds under an id, if there is a store. *)
Definition stored_query (database : Database) (oid : string)
  : option QueryDoc :=
  match client database with
  | Some mongo => queries mongo !! oid
  | None => None
  end.

Definition stored_notification (database : Database) (oid : string)
  : option NotificationDoc :=
  match client database with
  | Some mongo => notifications mongo !! oid
  | None => None
  end.

(** The status code FastAPI gives a route that declares none. *)
Definition HTTP_200_OK : Z := 200.

(** The code of a Conflict error; no route of [queries.py] mentions it. *)
Definition HTTP_409_CONFLICT : Z := 409.

(** The assign rule as the specification words it: on a query that is
    already [assigned] or [resolved], assign fails with Conflict and the
    store is as it was. *)
Definition assign_conflict_rule : Prop :=
  forall (env : Env) (query_id : string) (current_user : CurrentUser)
         (database : Database) (oid : string) (doc : QueryDoc),
    ObjectId_parse query_id = Some oid ->
    stored_query database oid = Some doc ->
    status doc = ASSIGNED \/ status doc = RESOLVED ->
    exists detail : string,
      assign_query env query_id current_user database
      = (Raise (HTTPException HTTP_409_CONFLICT detail), database).

(** The reply rule as the specification words it: a reply to a [closed]
    query fails and the store is as it was (no reply, no notification). *)
Definition closed_reply_rule : Prop :=
  forall (env : Env) (query_id : string) (body : OfficerReply)
         (current_user : CurrentUser) (database : Database)
         (oid : string) (doc : QueryDoc),
    ObjectId_parse query_id = Some oid ->
    stored_query database oid = Some doc ->
    status doc = CLOSED ->
    exists e : Exn,
      post_reply env query_id body current_user database
      = (Raise e, database).


(** The number of stored queries that [matches] selects. *)
Definition count_where (matches : QueryDoc -> bool)
    (qs : gmap string QueryDoc) : Z :=
  Z.of_nat (size (filter (fun kv : string * QueryDoc => matches kv.2 = true) qs)).

(** *** Sample data *)

Definition sample_query_oid : string := "65a1b2c3d4e5f60718293a4b".
Definition sample_other_oid : string := "65a1b2c3d4e5f60718293a4c".
Definition sample_notification_oid : string := "65a1b2c3d4e5f60718293aff".

Definition sample_env : Env :=
  {| utcnow_1st := 1700000100;
     utcnow_2nd := 1700000101;
     new_query_oid := sample_other_oid;
     new_notification_oid := sample_notification_oid |}.

Definition sample_farmer : CurrentUser :=
  {| user_id := "65a1b2c3d4e5f60718290001"; role := "farmer" |}.
Definition sample_officer_A : CurrentUser :=
  {| user_id := "65a1b2c3d4e5f60718290002"; role := "officer" |}.
Definition sample_officer_B : CurrentUser :=
  {| user_id := "65a1b2c3d4e5f60718290003"; role := "officer" |}.

(** A request body whose [query_text] is [text] and whose [farmer_id] is
    not the caller's. *)
Definition sample_body (text : string) : QueryCreate :=
  {| qc_farmer_name := "Ramesh";
     qc_farmer_id := "someone-else";
     qc_location := Some "Nashik";
     qc_crop_type := Some "onion";
     qc_query_text := text;
     qc_category := PEST;
     qc_urgency := HIGH;
     qc_image_path := None;
     qc_audio_path := None |}.

(** A stored query in status [st], assigned to [officer]. *)
Definition sample_doc (st : QueryStatus) (officer : option string)
  : QueryDoc :=
  {| farmer_name := "Ramesh";
     farmer_id := user_id sample_farmer;
     location := Some "Nashik";
     crop_type := Some "onion";
     query_text := "Leaves are curling";
     category := PEST;
     urgency := HIGH;
     image_path := None;
     audio_path := None;
     status := st;
     created_at := 1700000000;
     assigned_to := officer;
     officer_name := None;
     updated_at := None;
     reply := None |}.

(** A store that holds the given queries and no notification. *)
Definition sample_database (qs : gmap string QueryDoc) : Database :=
  {| client := Some {| queries := qs; notifications := ∅ |};
     mock_queries := [] |}.

(** The server started without a store. *)
Definition no_database : Database :=
  {| client := None; mock_queries := [] |}.

Definition sample_reply (resolve : bool) : OfficerReply :=
  {| query_id := sample_query_oid;
     reply_text := "Spray neem oil each week.";
     mark_resolved := resolve |}.

(** The request body with another [farmer_id] in it. *)
Definition set_farmer_id (fid : string) (q : QueryCreate) : QueryCreate :=
  {| qc_farmer_name := qc_farmer_name q;
     qc_farmer_id := fid;
     qc_location := qc_location q;
     qc_crop_type := qc_crop_type q;
     qc_query_text := qc_query_text q;
     qc_category := qc_category q;
     qc_urgency := qc_urgency q;
     qc_image_path := qc_image_path q;
     qc_audio_path := qc_audio_path q |}.

(** *** Connection manager *)

(** The world after [frames] more have gone out. *)
Definition push (w : World) (frames : list (WebSocket * Message)) : World :=
  {| active_connections := active_connections w;
     closed := closed w;
     outbox := (outbox w ++ frames)%list |}.

(** The world with the manager's dictionary replaced by [d]. *)
Definition with_connections (w : World) (d : gmap string (list WebSocket))
  : World :=
  {| active_connections := d; closed := closed w; outbox := outbox w |}.

(** What a loop of guarded sends over [conns] puts on the wire: one frame
    per connection that is not closed, in the order of [conns]. *)
Definition frames_to (cl : gset WebSocket) (message : Message)
    (conns : list WebSocket) : list (WebSocket * Message) :=
  (fun c => (c, message)) <$> filter (fun c => c ∉ cl) conns.

(** The same for a loop over dictionary entries that keeps the users
    selected by [p]. *)
Definition frames_to_entries (p : string -> bool) (cl : gset WebSocket)
    (message : Message) (entries : list (string * list WebSocket))
  : list (WebSocket * Message) :=
  flat_map (fun e => if p e.1 then frames_to cl message e.2 else []) entries.

(** No user is mapped to an empty list of connections. *)
Definition no_empty_entry (w : World) : Prop :=
  forall (u : string) (conns : list WebSocket),
    active_connections w !! u = Some conns -> conns <> [].

(** The calls that change the manager's dictionary. *)
Inductive registry_op : Type :=
  | op_connect (websocket : WebSocket) (user_id : string)
  | op_disconnect (websocket : WebSocket) (user_id : string).

Definition run_op (op : registry_op) : M World unit :=
  match op with
  | op_connect ws u => connect ws u
  | op_disconnect ws u => disconnect ws u
  end.

(** A sequence of such calls, each run whatever the previous one did (a
    [disconnect] that raises is the end of its own handler only). *)
Definition run_ops (ops : list registry_op) (w : World) : World :=
  fold_left (fun w op => (run_op op w).2) ops w.

(** The manager as the module creates it. *)
Definition new_world (cl : gset WebSocket) : World :=
  {| active_connections := ∅; closed := cl; outbox := [] |}.

(** A notification frame. *)
Definition sample_message : Message :=
  {| msg_type := "notification"; msg_data := "query_submitted" |}.

(** Officers 1 and 2 and a farmer, one connection each (sockets 1, 2, 3). *)
Definition sample_world : World :=
  run_ops [op_connect 1%nat "officer_1"; op_connect 2%nat "officer_2";
           op_connect 3%nat "farmer_7"]
    (new_world ∅).

(** One user with sockets 4, 5, 6, the peer of 5 being gone. *)
Definition sample_world_closed : World :=
  run_ops [op_connect 4%nat "farmer_7"; op_connect 5%nat "farmer_7";
           op_connect 6%nat "farmer_7"]
    (new_world {[ 5%nat ]}).

(* ===================================================================== *)
(** ** The reading routes of [app/routes/queries.py] *)
(* ===================================================================== *)

Definition HTTP_403_FORBIDDEN : Z := 403.

(** [results.append(f(x)) for x in xs], the first exception ending the
    loop. *)
Fixpoint map_each {S A B} (xs : list A) (f : A -> M S B) : M S (list B) :=
  match xs with
  | [] => ret []
  | x :: xs' => y <- f x ;; ys <- map_each xs' f ;; ret (y :: ys)
  end.

(** [collection.find_one({"_id": oid})] *)
Definition find_one (coll : option QueriesCollection) (oid : string)
  : M Database (option (string * QueryDoc)) :=
  call_method coll (fun mongo =>
    match queries mongo !! oid with
    | None => (Ok None, mongo)
    | Some doc => (Ok (Some (oid, doc)), mongo)
    end).

(** The order [.sort("created_at", -1)] asks for: newest first. *)
Definition newer_first (a b : string * QueryDoc) : Prop :=
  created_at b.2 <= created_at a.2.

#[global] Instance newer_first_dec a b : Decision (newer_first a b).
Proof. unfold newer_first. apply _. Defined.

(** [cursor = collection.find(filter).sort("created_at", -1).limit(limit)]
    followed by [await cursor.to_list(length=limit)].  The documents that
    match are sorted (how the server orders documents with equal
    [created_at] is its own business; here a merge sort of [map_to_list]),
    and [to_list] hands over the first [limit] of them; it refuses a
    negative [length] with a [ValueError]. *)
Definition find_sort_to_list (coll : option QueriesCollection)
    (matches : QueryDoc -> bool) (limit : Z)
  : M Database (list (string * QueryDoc)) :=
  call_method coll (fun mongo =>
    if limit <? 0 then (Raise ValueError, mongo)
    else
      (Ok (take (Z.to_nat limit)
             (merge_sort newer_first
                (map_to_list
                   (filter (fun kv : string * QueryDoc => matches kv.2 = true)
                           (queries mongo))))),
       mongo)).

(** [filter_query] of [get_query_history]: a farmer sees their own
    queries (and the [status] argument is not looked at); an officer who
    gives a status sees the queries in that status; anyone else sees all. *)
Definition history_filter (current_user : CurrentUser)
    (status_arg : option QueryStatus) (doc : QueryDoc) : bool :=
  if String.eqb (role current_user) "farmer"
  then String.eqb (farmer_id doc) (user_id current_user)
  else
    match String.eqb (role current_user) "officer", status_arg with
    | true, Some s => bool_decide (status doc = s)
    | _, _ => true
    end.

(** [get_query_history(current_user, status, limit)] *)
Definition get_query_history (current_user : CurrentUser)
    (status_arg : option QueryStatus) (limit : Z)
  : M Database (list QueryResponse) :=
  queries_collection <- get_queries_collection ;;
  let filter_query := history_filter current_user status_arg in
  queries <- find_sort_to_list queries_collection filter_query limit ;;
  map_each queries
    (fun '(_id, query_doc) => QueryResponse_new (response_of_doc _id query_doc)).

(** [GET /api/queries/history]: [limit] is declared [Query(50, le=100)]. *)
Definition get_history (current_user : CurrentUser)
    (status_arg : option QueryStatus) (limit : option Z)
  : M Database (list QueryResponse) :=
  let limit := default 50 limit in
  if limit <=? 100 then get_query_history current_user status_arg limit
  else raise RequestValidationError.

(** [get_query_details(query_id, current_user)] *)
Definition get_query_details (query_id : string) (current_user : CurrentUser)
  : M Database QueryResponse :=
  queries_collection <- get_queries_collection ;;
  query_doc <-
    try_except
      (oid <- ObjectId query_id ;; find_one queries_collection oid)
      (fun _ => raise (HTTPException HTTP_400_BAD_REQUEST "Invalid query ID")) ;;
  match query_doc with
  | None => raise (HTTPException HTTP_404_NOT_FOUND "Query not found")
  | Some (_id, query_doc) =>
      if String.eqb (role current_user) "farmer"
         && negb (String.eqb (farmer_id query_doc) (user_id current_user))
      then raise (HTTPException HTTP_403_FORBIDDEN "Access denied")
      else QueryResponse_new (response_of_doc _id query_doc)
  end.

(** *** The routes as calls on the store *)

(** One request to a query route, with what it draws from its
    environment. *)
Inductive route_call : Type :=
  | call_submit (env : Env) (body : QueryCreate) (current_user : CurrentUser)
  | call_assign (env : Env) (query_id : string) (current_user : CurrentUser)
  | call_reply (env : Env) (query_id : string) (body : OfficerReply)
      (current_user : CurrentUser)
  | call_details (query_id : string) (current_user : CurrentUser)
  | call_history (current_user : CurrentUser) (status_arg : option QueryStatus)
      (limit : option Z)
  | call_statistics (current_user : CurrentUser).

(** The store a request leaves behind, whether it succeeded or not. *)
Definition run_call (c : route_call) (database : Database) : Database :=
  match c with
  | call_submit env body u => (post_submit env body u database).2
  | call_assign env qid u => (assign_query env qid u database).2
  | call_reply env qid body u => (post_reply env qid body u database).2
  | call_details qid u => (get_query_details qid u database).2
  | call_history u s l => (get_history u s l database).2
  | call_statistics u => (get_statistics u database).2
  end.

Definition run_calls (cs : list route_call) (database : Database) : Database :=
  fold_left (fun db c => run_call c db) cs database.

(** A store with nothing in it yet. *)
Definition empty_database : Database :=
  {| client := Some {| queries := ∅; notifications := ∅ |};
     mock_queries := [] |}.

(** The status and the assignee of every stored query agree: an [open]
    query has no assignee, an [assigned] one has. *)
Definition assignment_consistent (database : Database) : Prop :=
  forall (oid : string) (doc : QueryDoc),
    stored_query database oid = Some doc ->
    (status doc = OPEN -> assigned_to doc = None) /\
    (status doc = ASSIGNED -> is_Some (assigned_to doc)).

(** No stored query is [closed]. *)
Definition none_closed (database : Database) : Prop :=
  forall (oid : string) (doc : QueryDoc),
    stored_query database oid = Some doc -> status doc <> CLOSED.

(** The queries of the store, none when there is no store. *)
Definition stored_queries (database : Database) : gmap string QueryDoc :=
  match client database with
  | Some mongo => queries mongo
  | None => ∅
  end.

(** [{"status": s}] as a filter. *)
Definition is_status (s : QueryStatus) (d : QueryDoc) : bool :=
  bool_decide (status d = s).

(** The documents [get_query_history] reads for a caller. *)
Definition history_docs (user : CurrentUser) (st : option QueryStatus)
    (limit : Z) (mongo : MongoDB) : list (string * QueryDoc) :=
  take (Z.to_nat limit)
    (merge_sort newer_first
       (map_to_list
          (filter (fun kv : string * QueryDoc =>
                     history_filter user st kv.2 = true)
                  (queries mongo)))).

(** What one request may do to the [queries] collection. *)
Inductive query_write (qs qs' : gmap string QueryDoc) : Prop :=
  | write_nothing :
      qs' = qs -> query_write qs qs'
  | write_new (oid : string) (doc : QueryDoc) :
      qs !! oid = None -> status doc = OPEN -> assigned_to doc = None ->
      qs' = <[oid := doc]> qs -> query_write qs qs'
  | write_assign (oid : string) (doc : QueryDoc) (officer : string)
      (now : datetime) :
      qs !! oid = Some doc ->
      qs' = <[oid := assign_set officer now doc]> qs -> query_write qs qs'
  | write_reply (oid : string) (doc : QueryDoc) (r : OfficerReply)
      (now : datetime) :
      qs !! oid = Some doc ->
      qs' = <[oid := reply_set r now doc]> qs -> query_write qs qs'.

(** What one request may do to the [notifications] collection. *)
Inductive notification_write (ns ns' : gmap string NotificationDoc) : Prop :=
  | notify_nothing :
      ns' = ns -> notification_write ns ns'
  | notify_new (oid : string) (n : NotificationDoc) :
      ns !! oid = None -> ns' = <[oid := n]> ns -> notification_write ns ns'.

(** What one request may do to the store. *)
Definition store_step (db db' : Database) : Prop :=
  db' = db \/
  exists mongo mongo' : MongoDB,
    client db = Some mongo /\ db' = with_mongo db mongo' /\
    query_write (queries mongo) (queries mongo') /\
    notification_write (notifications mongo) (notifications mongo').

(** The fields of a query that are written once, when it is submitted. *)
Definition same_submission (d d' : QueryDoc) : Prop :=
  farmer_name d' = farmer_name d /\ farmer_id d' = farmer_id d /\
  location d' = location d /\ crop_type d' = crop_type d /\
  query_text d' = query_text d /\ category d' = category d /\
  urgency d' = urgency d /\ image_path d' = image_path d /\
  audio_path d' = audio_path d /\ created_at d' = created_at d /\
  officer_name d' = officer_name d.

(* ===================================================================== *)
(** ** The notification endpoint of [app/routes/websocket.py] *)
(* ===================================================================== *)

(** A JSON value, as [json.loads] returns it and [send_json] takes it.  An
    object keeps its members in the order of the text. *)
#[local] Unset Elimination Schemes.
Inductive json : Type :=
  | JNull
  | JBool (b : bool)
  | JNumber (literal : string)
  | JString (s : string)
  | JArray (items : list json)
  | JObject (members : list (string * json)).
#[local] Set Elimination Schemes.

(** [d.get(key)] on the dictionary of an object: when a key is repeated
    in the text, the last member wins. *)
Fixpoint dict_get (key : string) (members : list (string * json))
  : option json :=
  match members with
  | [] => None
  | (k, v) :: rest =>
      match dict_get key rest with
      | Some v' => Some v'
      | None => if String.eqb k key then Some v else None
      end
  end.

(** [message.get(key)]: only a dictionary has [get]. *)
Definition message_get {S} (message : json) (key : string)
  : M S (option json) :=
  match message with
  | JObject members => ret (dict_get key members)
  | _ => raise AttributeError
  end.

(** [v == s] for the result [v] of a [get] and a string [s]. *)
Definition equals_str (v : option json) (s : string) : bool :=
  match v with
  | Some (JString s') => String.eqb s' s
  | _ => false
  end.

(** The state of the endpoint: the manager and its sockets, what the
    endpoint itself has sent with [send_json], and the sockets it has
    closed, with code and reason. *)
Record Endpoint : Type := {
  world  : World;
  wire   : list (WebSocket * json);
  closes : list (WebSocket * Z * string)
}.

(** A call into the manager. *)
Definition on_manager {A} (m : M World A) : M Endpoint A :=
  fun e =>
    let (r, w) := m (world e) in
    (r, {| world := w; wire := wire e; closes := closes e |}).

(** [await websocket.send_json(value)] from the endpoint. *)
Definition ws_send_json (websocket : WebSocket) (value : json)
  : M Endpoint unit :=
  fun e =>
    if decide (websocket ∈ closed (world e)) then (Raise SendFailure, e)
    else (Ok tt, {| world := world e;
                    wire := (wire e ++ [(websocket, value)])%list;
                    closes := closes e |}).

(** [await websocket.close(code=code, reason=reason)] *)
Definition ws_close (websocket : WebSocket) (code : Z) (reason : string)
  : M Endpoint unit :=
  fun e =>
    (Ok tt, {| world := world e;
               wire := wire e;
               closes := (closes e ++ [(websocket, code, reason)])%list |}).

(** What [decode_access_token] found in a token: [payload.get("sub")] and
    [payload.get("role")]. *)
Record Payload : Type := {
  sub        : option string;
  token_role : option string
}.

(** A text frame, by what [json.loads] makes of it: a value, or a
    [JSONDecodeError]. *)
Inductive text_frame : Type :=
  | text_json (message : json)
  | text_invalid_json.

(** What [receive_text] does: it returns a text, or raises (a
    [WebSocketDisconnect] when the peer has gone). *)
Inductive received : Type :=
  | recv_text (text : text_frame)
  | recv_disconnect.

(** Where the handler is when the texts received so far are used up. *)
Inductive session : Type :=
  | Waiting      (* suspended in [receive_text] *)
  | Returned.    (* the handler has returned    *)

Definition json_of_option (s : option string) : json :=
  match s with
  | Some s => JString s
  | None => JNull
  end.

(** The body of the loop for one text. *)
Definition handle_text (websocket : WebSocket) (text : text_frame)
  : M Endpoint unit :=
  match text with
  | text_json message =>
      t <- message_get message "type" ;;
      if equals_str t "ping"
      then ws_send_json websocket (JObject [("type", JString "pong")])
      else
        t <- message_get message "type" ;;
        if equals_str t "subscribe"
        then
          channel <- message_get message "channel" ;;
          ws_send_json websocket
            (JObject [("type", JString "subscribed");
                      ("channel", default JNull channel)])
        else ret tt
  | text_invalid_json =>
      ws_send_json websocket
        (JObject [("type", JString "error");
                  ("message", JString "Invalid JSON")])
  end.

(** [try: while True: ...  except WebSocketDisconnect: ...  except
    Exception: ...], run on what [receive_text] does in turn: both
    handlers call [manager.disconnect], after which the handler returns. *)
Fixpoint serve (websocket : WebSocket) (user_id : string)
    (incoming : list received) : M Endpoint session :=
  match incoming with
  | [] => ret Waiting
  | recv_disconnect :: _ =>
      on_manager (disconnect websocket user_id) ;; ret Returned
  | recv_text text :: rest =>
      goes_on <-
        try_except (handle_text websocket text ;; ret true)
          (fun _ => on_manager (disconnect websocket user_id) ;; ret false) ;;
      if goes_on : bool then serve websocket user_id rest else ret Returned
  end.

(** The frame sent after the connection is registered. *)
Definition welcome (user_id : string) (role : option string) : json :=
  JObject [("type", JString "connection");
           ("message", JString "Connected to FarmaSathi notifications");
           ("user_id", JString user_id);
           ("role", json_of_option role)].

(** [websocket_notifications(websocket, token)], with the result of
    [decode_access_token(token)] ([None] when it raises) and the texts the
    peer sends. *)
Definition websocket_notifications (decoded : option Payload)
    (websocket : WebSocket) (incoming : list received) : M Endpoint session :=
  match decoded with
  | None => ws_close websocket 1008 "Invalid token" ;; ret Returned
  | Some payload =>
      match sub payload with
      | None | Some "" =>
          ws_close websocket 1008 "Invalid token" ;; ret Returned
      | Some user_id =>
          on_manager (connect websocket user_id) ;;
          ws_send_json websocket (welcome user_id (token_role payload)) ;;
          serve websocket user_id incoming
      end
  end.

(** [notify_query_reply(farmer_id, query_data)] *)
Definition notify_query_reply (farmer_id : string) (query_data : string)
  : M World unit :=
  send_personal_message
    {| msg_type := "query_reply"; msg_data := query_data |} farmer_id.

(** The endpoint before anything was sent or closed. *)
Definition new_endpoint (w : World) : Endpoint :=
  {| world := w; wire := []; closes := [] |}.

(** A JSON text that is not an object. *)
Definition not_an_object (v : json) : Prop :=
  match v with
  | JObject _ => False
  | _ => True
  end.

(** What the loop sends back for a text. *)
Definition replies_to (text : text_frame) : list json :=
  match text with
  | text_json (JObject members) =>
      if equals_str (dict_get "type" members) "ping"
      then [JObject [("type", JString "pong")]]
      else if equals_str (dict_get "type" members) "subscribe"
      then [JObject [("type", JString "subscribed");
                     ("channel", default JNull (dict_get "channel" members))]]
      else []
  | text_json _ => []
  | text_invalid_json =>
      [JObject [("type", JString "error");
                ("message", JString "Invalid JSON")]]
  end.

(** A text the loop survives: invalid JSON or an object. *)
Definition survivable (text : text_frame) : bool :=
  match text with
  | text_json (JObject _) => true
  | text_json _ => false
  | text_invalid_json => true
  end.

(** The endpoint after it sent [values] to [websocket]. *)
Definition add_wire (e : Endpoint) (websocket : WebSocket)
    (values : list json) : Endpoint :=
  {| world := world e;
     wire := (wire e ++ ((fun v => (websocket, v)) <$> values))%list;
     closes := closes e |}.

(** The end of the handler: [manager.disconnect], then return. *)
Definition hang_up (ws : WebSocket) (u : string) (e : Endpoint)
  : Result session * Endpoint :=
  (match (disconnect ws u (world e)).1 with
   | Ok _ => Ok Returned
   | Raise x => Raise x
   end,
   {| world := (disconnect ws u (world e)).2;
      wire := wire e;
      closes := closes e |}).

(** A stored query of [owner], created at [t], in status [st]. *)
Definition sample_doc_of (owner : string) (t : datetime) (st : QueryStatus)
  : QueryDoc :=
  {| farmer_name := "Ramesh";
     farmer_id := owner;
     location := None;
     crop_type := None;
     query_text := "Leaves are curling";
     category := PEST;
     urgency := HIGH;
     image_path := None;
     audio_path := None;
     status := st;
     created_at := t;
     assigned_to := None;
     officer_name := None;
     updated_at := None;
     reply := None |}.

(** Two queries of [sample_farmer] and one of somebody else. *)
Definition sample_history : Database :=
  sample_database
    {[ sample_query_oid := sample_doc_of (user_id sample_farmer) 10 OPEN;
       sample_other_oid := sample_doc_of (user_id sample_farmer) 30 RESOLVED;
       sample_notification_oid := sample_doc_of "65a1b2c3d4e5f60718290009" 20 OPEN ]}.

(** An officer takes a query and resolves it; then a farmer submits. *)
Definition sample_calls : list route_call :=
  [call_assign sample_env sample_query_oid sample_officer_A;
   call_reply
     {| utcnow_1st := 1700000200; utcnow_2nd := 1700000201;
        new_query_oid := sample_other_oid;
        new_notification_oid := "65a1b2c3d4e5f60718293afe" |}
     sample_query_oid (sample_reply true) sample_officer_A;
   call_submit
     {| utcnow_1st := 1700000300; utcnow_2nd := 1700000301;
        new_query_oid := sample_other_oid;
        new_notification_oid := "65a1b2c3d4e5f60718293afd" |}
     (sample_body "Leaves are curling") sample_farmer].

(* ===================================================================== *)
(** ** Accounts: [app/models/user.py] and [app/routes/auth.py] *)
(* ===================================================================== *)

Inductive UserRole : Type := FARMER | OFFICER | ADMIN.

#[global] Instance UserRole_eq_dec : EqDecision UserRole.
Proof. solve_decision. Defined.

(** [UserCreate(UserBase)]: the body of a registration, validated. *)
Record UserCreate : Type := {
  uc_name       : string;
  uc_email      : option string;
  uc_phone      : string;
  uc_role       : UserRole;
  uc_password   : string;
  uc_location   : option string;
  uc_department : option string
}.

(** [UserLogin]: the body of a login, validated. *)
Record UserLogin : Type := {
  ul_phone    : string;
  ul_password : string;
  ul_role     : UserRole
}.

(** A user document, without its [_id]. *)
Record UserDoc : Type := {
  ud_name            : string;
  ud_email           : option string;
  ud_phone           : string;
  ud_role            : UserRole;
  ud_hashed_password : string;
  ud_location        : option string;
  ud_department      : option string;
  ud_created_at      : datetime;
  ud_is_active       : bool
}.

(** [UserResponse(UserBase)] *)
Record UserResponse : Type := {
  ur_id         : string;
  ur_name       : string;
  ur_email      : option string;
  ur_phone      : string;
  ur_role       : UserRole;
  ur_location   : option string;
  ur_department : option string;
  ur_created_at : datetime
}.

(** [Token] *)
Record Token : Type := {
  access_token : string;
  token_type   : string;
  user         : UserResponse
}.

(** What [auth.py] takes from [app.utils.security] and from pydantic's
    validators: the password hash and its check, the token of a
    [{"sub", "role"}] payload, the pattern [^\d{10}$] of [phone] and the
    [EmailStr] check. *)
Record Security : Type := {
  get_password_hash   : string -> string;
  verify_password     : string -> string -> bool;
  create_access_token : string -> UserRole -> string;
  phone_matches       : string -> bool;
  is_email            : string -> bool
}.

(** Building a [UserResponse] runs the validators of [UserBase]. *)
Definition UserResponse_new {S} (sec : Security) (r : UserResponse)
  : M S UserResponse :=
  if min_length 2 (ur_name r) && (len (ur_name r) <=? 100)
     && phone_matches sec (ur_phone r)
     && match ur_email r with
        | Some e => is_email sec e
        | None => true
        end
  then ret r else raise ValidationError.

(** [db.users], with the unique index [init_db] asks for on [email], when
    it could be created. *)
Record UsersCollection : Type := {
  user_docs          : gmap string UserDoc;
  email_unique_index : bool
}.

(** The accounts side of the [database] object: [db.users] when there is
    a client, and the dictionary [mock_users], in insertion order. *)
Record Accounts : Type := {
  users      : option UsersCollection;
  mock_users : list (string * UserDoc)
}.

(** What a registration draws from its environment. *)
Record AuthEnv : Type := {
  auth_utcnow  : datetime;
  new_user_oid : string
}.

(** [get_users_collection()] *)
Definition get_users_collection : M Accounts (option UsersCollection) :=
  database <- get ;; ret (users database).

(** [d[key] = value] on a dictionary kept in insertion order. *)
Fixpoint dict_set {V} (key : string) (value : V) (d : list (string * V))
  : list (string * V) :=
  match d with
  | [] => [(key, value)]
  | (k, v) :: rest =>
      if String.eqb k key then (k, value) :: rest
      else (k, v) :: dict_set key value rest
  end.


(** [str(n)] for a length. *)
Definition str (n : nat) : string := pretty n.

(** [users_collection.find_one({"phone": phone})] *)
Definition find_one_by_phone (coll : UsersCollection) (phone : string)
  : option (string * UserDoc) :=
  head (map_to_list
          (filter (fun kv : string * UserDoc => ud_phone kv.2 = phone)
                  (user_docs coll))).

(** [users_collection.insert_one(doc)], the driver having generated
    [oid]: the server refuses an [_id] that is taken and, under the unique
    index, an [email] that some document already has (an absent email
    counting as one value). *)
Definition users_insert_one (oid : string) (doc : UserDoc)
  : M Accounts string :=
  fun database =>
    match users database with
    | None => (Raise AttributeError, database)
    | Some coll =>
        if bool_decide (is_Some (user_docs coll !! oid))
           || email_unique_index coll
              && bool_decide
                   (map_Exists (fun _ d => ud_email d = ud_email doc)
                      (user_docs coll))
        then (Raise DuplicateKeyError, database)
        else
          (Ok oid,
           {| users := Some {| user_docs := <[oid := doc]> (user_docs coll);
                               email_unique_index := email_unique_index coll |};
              mock_users := mock_users database |})
    end.

Definition HTTP_401_UNAUTHORIZED : Z := 401.

Definition user_doc_of (sec : Security) (env : AuthEnv) (user : UserCreate)
  : UserDoc :=
  {| ud_name := uc_name user;
     ud_email := uc_email user;
     ud_phone := uc_phone user;
     ud_role := uc_role user;
     ud_hashed_password := get_password_hash sec (uc_password user);
     ud_location := uc_location user;
     ud_department := uc_department user;
     ud_created_at := auth_utcnow env;
     ud_is_active := true |}.

(** [register_user(user)] *)
Definition register_user (sec : Security) (env : AuthEnv) (user : UserCreate)
  : M Accounts Token :=
  users_collection <- get_users_collection ;;
  match users_collection with
  | None =>
      database <- get ;;
      if existsb (fun kv => String.eqb (ud_phone kv.2) (uc_phone user))
           (mock_users database)
      then raise (HTTPException HTTP_400_BAD_REQUEST
                    "Phone number already registered")
      else
        let user_id := str (length (mock_users database) + 1) in
        let user_doc := user_doc_of sec env user in
        put {| users := users database;
               mock_users := dict_set user_id user_doc (mock_users database) |} ;;
        let access_token := create_access_token sec user_id (uc_role user) in
        user_response <-
          UserResponse_new sec
            {| ur_id := user_id;
               ur_name := uc_name user;
               ur_email := uc_email user;
               ur_phone := uc_phone user;
               ur_role := uc_role user;
               ur_location := uc_location user;
               ur_department := uc_department user;
               ur_created_at := ud_created_at user_doc |} ;;
        ret {| access_token := access_token;
               token_type := "bearer";
               user := user_response |}
  | Some coll =>
      match find_one_by_phone coll (uc_phone user) with
      | Some _ =>
          raise (HTTPException HTTP_400_BAD_REQUEST
                   "Phone number already registered")
      | None =>
          let user_doc := user_doc_of sec env user in
          user_id <- users_insert_one (new_user_oid env) user_doc ;;
          let access_token := create_access_token sec user_id (uc_role user) in
          user_response <-
            UserResponse_new sec
              {| ur_id := user_id;
                 ur_name := uc_name user;
                 ur_email := uc_email user;
                 ur_phone := uc_phone user;
                 ur_role := uc_role user;
                 ur_location := uc_location user;
                 ur_department := uc_department user;
                 ur_created_at := ud_created_at user_doc |} ;;
          ret {| access_token := access_token;
                 token_type := "bearer";
                 user := user_response |}
      end
  end.

(** [UserResponse(id=str(user_doc["_id"]), name=user_doc["name"], ...)] *)
Definition user_response_of (id : string) (user_doc : UserDoc)
  : UserResponse :=
  {| ur_id := id;
     ur_name := ud_name user_doc;
     ur_email := ud_email user_doc;
     ur_phone := ud_phone user_doc;
     ur_role := ud_role user_doc;
     ur_location := ud_location user_doc;
     ur_department := ud_department user_doc;
     ur_created_at := ud_created_at user_doc |}.

(** The checks of [login_user] on the document found, and its answer;
    the same statements in both modes. *)
Definition login_with (sec : Security) (credentials : UserLogin)
    (found : option (string * UserDoc)) : M Accounts Token :=
  match found with
  | None =>
      raise (HTTPException HTTP_401_UNAUTHORIZED "Invalid credentials")
  | Some (_id, user_doc) =>
      if negb (verify_password sec (ul_password credentials)
                 (ud_hashed_password user_doc))
      then raise (HTTPException HTTP_401_UNAUTHORIZED "Invalid credentials")
      else if negb (bool_decide (ud_role user_doc = ul_role credentials))
      then raise (HTTPException HTTP_401_UNAUTHORIZED
                    "Invalid role for this account")
      else if negb (ud_is_active user_doc)
      then raise (HTTPException HTTP_403_FORBIDDEN "Account is deactivated")
      else
        let user_id := _id in
        let access_token :=
          create_access_token sec user_id (ud_role user_doc) in
        user_response <-
          UserResponse_new sec (user_response_of user_id user_doc) ;;
        ret {| access_token := access_token;
               token_type := "bearer";
               user := user_response |}
  end.

(** [login_user(credentials)] *)
Definition login_user (sec : Security) (credentials : UserLogin)
  : M Accounts Token :=
  users_collection <- get_users_collection ;;
  match users_collection with
  | None =>
      database <- get ;;
      (* the first [mock_user] whose phone is the one given *)
      login_with sec credentials
        (List.find (fun kv => String.eqb (ud_phone kv.2) (ul_phone credentials))
           (mock_users database))
  | Some coll =>
      login_with sec credentials
        (find_one_by_phone coll (ul_phone credentials))
  end.

(** Accounts with no store and nobody registered. *)
Definition no_accounts : Accounts := {| users := None; mock_users := [] |}.


(** The mock registrations made one after the other, failed ones
    leaving the dictionary as it was. *)
Definition register_all (sec : Security)
    (requests : list (AuthEnv * UserCreate)) (database : Accounts) : Accounts :=
  fold_left (fun db r => (register_user sec r.1 r.2 db).2) requests database.

(** The account a login looks at: the first mock user with the phone, or
    what [find_one] returns. *)
Definition find_account (database : Accounts) (phone : string)
  : option (string * UserDoc) :=
  match users database with
  | None =>
      List.find (fun kv => String.eqb (ud_phone kv.2) phone)
        (mock_users database)
  | Some coll => find_one_by_phone coll phone
  end.


(** The keys of the mock dictionary are [str(1)], ..., [str(n)], and no
    two mock users have the same phone. *)
Definition mock_users_numbered (database : Accounts) : Prop :=
  (mock_users database).*1 = str <$> seq 1 (length (mock_users database)) /\
  NoDup ((fun kv => ud_phone kv.2) <$> mock_users database).

(** Stand-ins for the security module, for the examples. *)
Definition sample_security : Security :=
  {| get_password_hash := fun p => "hash:" ++ p;
     verify_password := fun p h => String.eqb h ("hash:" ++ p);
     create_access_token := fun id _ => "token:" ++ id;
     phone_matches := fun s => (String.length s =? 10)%nat;
     is_email := fun _ => true |}.

Definition sample_auth_env : AuthEnv :=
  {| auth_utcnow := 1700000000; new_user_oid := "65a1b2c3d4e5f60718290002" |}.

Definition sample_user : UserCreate :=
  {| uc_name := "Sita";
     uc_email := None;
     uc_phone := "9876543210";
     uc_role := OFFICER;
     uc_password := "secret1";
     uc_location := None;
     uc_department := Some "Horticulture" |}.



(** *** Proof automation *)

(** Unfolds a route down to the monad's plumbing. *)
Ltac unfold_route :=
  unfold post_submit, post_reply, submit_query, assign_query, reply_to_query,
    queries_insert_one, notifications_insert_one, find_one_and_update,
    get_queries_collection, get_notifications_collection, get_database,
    call_method, ObjectId, QueryResponse_new, QueryCreate_valid,
    OfficerReply_valid, min_length, stored_query, stored_notification,
    with_mongo, try_except, bind, get, ret, raise.

(** Names the server's data when the store holds something. *)
Ltac open_store db H :=
  let cl := fresh "cl" in
  let mq := fresh "mq" in
  destruct db as [cl mq]; unfold stored_query in H; simpl in H;
  destruct cl as [?mongo|]; [|discriminate H].

(* ===================================================================== *)
(** ** Properties of the connection manager *)
(* ===================================================================== *)

Lemma push_nil (w : World) : push w [] = w.
Proof. destruct w; unfold push; simpl. by rewrite app_nil_r. Qed.

Lemma push_push (w : World) f1 f2 : push (push w f1) f2 = push w (f1 ++ f2).
Proof. unfold push; simpl. by rewrite app_assoc. Qed.

Lemma frames_to_app cl message l1 l2 :
  frames_to cl message (l1 ++ l2)
  = (frames_to cl message l1 ++ frames_to cl message l2)%list.
Proof. unfold frames_to. by rewrite filter_app, fmap_app. Qed.

Lemma elem_of_frames_to cl message conns ws m :
  (ws, m) ∈ frames_to cl message conns
  <-> (m = message /\ (ws ∉ cl) /\ ws ∈ conns).
Proof.
  unfold frames_to. rewrite list_elem_of_fmap. split.
  - intros (c & Heq & Hin). inversion Heq; subst.
    apply list_elem_of_filter in Hin as [? ?]. done.
  - intros (-> & Hcl & Hin). exists ws. split; [done|].
    by apply list_elem_of_filter.
Qed.

(** One guarded send: the frame goes out unless the socket is closed, and
    the guard absorbs the failure. *)
Lemma try_send_run c message w :
  try_send c message w = (Ok tt, push w (frames_to (closed w) message [c])).
Proof.
  unfold try_send, try_except, send_json, frames_to.
  rewrite filter_cons, filter_nil.
  destruct (decide (c ∈ closed w)) as [Hc|Hc].
  - rewrite decide_False by (intros Hn; by apply Hn).
    simpl. by rewrite push_nil.
  - rewrite decide_True by done. reflexivity.
Qed.

(** The inner loop of the three send routines. *)
Lemma send_loop_run conns message w :
  for_each conns (fun c => try_send c message) w
  = (Ok tt, push w (frames_to (closed w) message conns)).
Proof.
  revert w. induction conns as [|c conns IH]; intros w; simpl.
  - unfold ret. by rewrite push_nil.
  - unfold bind. rewrite try_send_run, IH, push_push. simpl.
    by rewrite <- frames_to_app.
Qed.

(** The outer loop of the two broadcasts. *)
Lemma entries_loop_run (p : string -> bool) entries message w :
  for_each entries
    (fun '(user_id, connections) =>
       if p user_id
       then for_each connections (fun c => try_send c message)
       else ret tt) w
  = (Ok tt, push w (frames_to_entries p (closed w) message entries)).
Proof.
  revert w. induction entries as [|[u conns] entries IH]; intros w; simpl.
  - unfold ret. by rewrite push_nil.
  - unfold bind. destruct (p u).
    + rewrite send_loop_run, IH, push_push. reflexivity.
    + unfold ret at 1. rewrite IH. reflexivity.
Qed.

Lemma elem_of_frames_to_entries p cl message entries ws m :
  (ws, m) ∈ frames_to_entries p cl message entries
  <-> (m = message /\ (ws ∉ cl) /\
       exists u conns, (u, conns) ∈ entries /\ p u = true /\ ws ∈ conns).
Proof.
  unfold frames_to_entries. rewrite list_elem_of_In, in_flat_map. split.
  - intros ([u conns] & Hin & Hf). simpl in Hf.
    destruct (p u) eqn:Hp; [|by destruct Hf].
    apply list_elem_of_In, elem_of_frames_to in Hf as (-> & ? & ?).
    apply list_elem_of_In in Hin. naive_solver.
  - intros (-> & Hcl & u & conns & Hin & Hp & Hws).
    exists (u, conns). split; [by apply list_elem_of_In|].
    simpl. rewrite Hp. apply list_elem_of_In, elem_of_frames_to. done.
Qed.

(** [send_personal_message] in one step. *)
Lemma send_personal_message_run message u w :
  send_personal_message message u w
  = (Ok tt, push w (frames_to (closed w) message
                      (default [] (active_connections w !! u)))).
Proof.
  unfold send_personal_message, bind, get.
  destruct (active_connections w !! u) as [conns|]; simpl.
  - apply send_loop_run.
  - unfold ret. by rewrite push_nil.
Qed.

(** C8.  [send_personal_message] never raises.  For a user with no entry
    in the dictionary it returns at once and the world is as it was; for
    a user with connections, every connection that is not closed gets the
    message, in order, whatever happened on the connections before it: a
    send that fails is absorbed by its own guard and the loop goes on. *)
Theorem send_personal_message_best_effort :
  forall (message : Message) (u : string) (w : World),
    (send_personal_message message u w).1 = Ok tt /\
    match active_connections w !! u with
    | None => (send_personal_message message u w).2 = w
    | Some conns =>
        (send_personal_message message u w).2
        = push w (frames_to (closed w) message conns) /\
        forall (before after : list WebSocket) (c : WebSocket),
          conns = (before ++ c :: after)%list ->
          c ∉ closed w ->
          (c, message) ∈ outbox (send_personal_message message u w).2
    end.
Proof.
  intros message u w. rewrite send_personal_message_run. simpl.
  split; [done|].
  destruct (active_connections w !! u) as [conns|] eqn:Hu; simpl.
  - split; [done|]. intros before after c -> Hc.
    apply elem_of_app. right. apply elem_of_frames_to.
    split; [done|]. split; [done|].
    apply elem_of_app. right. by left.
  - apply push_nil.
Qed.

Lemma send_personal_message_best_effort_witness :
  (send_personal_message sample_message "farmer_7" sample_world_closed).1
  = Ok tt /\
  ((5%nat, sample_message)
     ∉ outbox (send_personal_message sample_message "farmer_7"
                 sample_world_closed).2) /\
  (6%nat, sample_message)
    ∈ outbox (send_personal_message sample_message "farmer_7"
                sample_world_closed).2 /\
  (send_personal_message sample_message "nobody" sample_world_closed).1
  = Ok tt /\
  (send_personal_message sample_message "nobody" sample_world_closed).2
  = sample_world_closed.
Proof.
  pose proof (send_personal_message_best_effort sample_message "farmer_7"
                sample_world_closed) as [Hok Hsome].
  pose proof (send_personal_message_best_effort sample_message "nobody"
                sample_world_closed) as [Hok' Hnone].
  change (active_connections sample_world_closed !! "farmer_7")
    with (Some [4%nat; 5%nat; 6%nat]) in Hsome.
  change (active_connections sample_world_closed !! "nobody")
    with (@None (list WebSocket)) in Hnone.
  destruct Hsome as [Hrun Hiso].
  split; [exact Hok|]. split.
  - rewrite Hrun. vm_compute. intros H.
    repeat (apply elem_of_cons in H as [H|H]; [discriminate H|]).
    by apply elem_of_nil in H.
  - split; [|split; [exact Hok'|exact Hnone]].
    apply (Hiso [4%nat; 5%nat] [] 6%nat); [reflexivity|].
    change (closed sample_world_closed) with ({[ 5%nat ]} : gset WebSocket).
    intros H. apply elem_of_singleton in H. discriminate H.
Defined.

(** [broadcast_to_officers] in one step. *)
Lemma broadcast_to_officers_run message w :
  broadcast_to_officers message w
  = (Ok tt, push w (frames_to_entries (fun u => startswith u "officer_")
                      (closed w) message
                      (map_to_list (active_connections w)))).
Proof.
  unfold broadcast_to_officers, bind, get.
  apply (entries_loop_run (fun u => startswith u "officer_")).
Qed.



(** *** Registering and unregistering *)

(** [connect] in one step: the socket is appended to the user's list, which
    is created when the user has none. *)
Lemma connect_run ws u w :
  connect ws u w
  = (Ok tt, with_connections w
              (<[u := (default [] (active_connections w !! u) ++ [ws])%list]>
                 (active_connections w))).
Proof.
  unfold connect, accept, bind, ret, get, set_active_connections,
    with_connections.
  destruct (decide (is_Some (active_connections w !! u))) as [[conns Hu]|Hu];
    simpl.
  - by rewrite Hu.
  - rewrite lookup_insert_eq, insert_insert_eq.
    apply eq_None_not_Some in Hu. by rewrite Hu.
Qed.

(** [disconnect] in one step. *)
Lemma disconnect_run ws u w :
  disconnect ws u w
  = match active_connections w !! u with
    | None => (Ok tt, w)
    | Some conns =>
        match list_remove ws conns with
        | None => (Raise ValueError, w)
        | Some [] =>
            (Ok tt, with_connections w (delete u (active_connections w)))
        | Some (c :: cs) =>
            (Ok tt,
             with_connections w (<[u := c :: cs]> (active_connections w)))
        end
    end.
Proof.
  unfold disconnect, bind, ret, raise, get, set_active_connections,
    with_connections.
  simpl. destruct (active_connections w !! u) as [conns|] eqn:Hu; simpl;
    [|done].
  destruct (list_remove ws conns) as [[|c cs]|]; simpl; [| |done].
  - rewrite lookup_insert_eq. simpl. by rewrite delete_insert_eq.
  - rewrite lookup_insert_eq. done.
Qed.

(** Removing [a] from a list that ends in [a; b] succeeds and keeps [b],
    also when [a] occurs earlier and when [b] is [a] itself. *)
Lemma list_remove_app_last a l b :
  exists l', list_remove a (l ++ [a; b]) = Some l' /\ b ∈ l'.
Proof.
  induction l as [|y l (l' & IH & Hb)]; simpl.
  - rewrite decide_True by done. exists [b]. split; [done|by left].
  - destruct (decide (a = y)).
    + eexists. split; [done|].
      apply elem_of_app. right. right. by left.
    + rewrite IH. eexists. split; [done|by right].
Qed.

Lemma connect_no_empty_entry ws u w :
  no_empty_entry w -> no_empty_entry (connect ws u w).2.
Proof.
  intros Hw u' conns. rewrite connect_run. simpl.
  destruct (decide (u = u')) as [->|Hne].
  - rewrite lookup_insert_eq. intros [= <-]. by destruct (default _ _).
  - rewrite lookup_insert_ne by done. apply Hw.
Qed.

Lemma disconnect_no_empty_entry ws u w :
  no_empty_entry w -> no_empty_entry (disconnect ws u w).2.
Proof.
  intros Hw. rewrite disconnect_run.
  destruct (active_connections w !! u) as [conns|]; [|done].
  destruct (list_remove ws conns) as [[|c cs]|]; [| |done];
    intros u' conns'; simpl.
  - destruct (decide (u = u')) as [->|Hne].
    + by rewrite lookup_delete_eq.
    + rewrite lookup_delete_ne by done. apply Hw.
  - destruct (decide (u = u')) as [->|Hne].
    + rewrite lookup_insert_eq. by intros [= <-].
    + rewrite lookup_insert_ne by done. apply Hw.
Qed.

(** The invariant is inductive over the calls that touch the dictionary. *)
Lemma run_ops_no_empty_entry ops w :
  no_empty_entry w -> no_empty_entry (run_ops ops w).
Proof.
  revert w. induction ops as [|op ops IH]; intros w Hw; [done|].
  simpl. apply IH. destruct op; simpl.
  - by apply connect_no_empty_entry.
  - by apply disconnect_no_empty_entry.
Qed.

(** [broadcast] in one step. *)
Lemma broadcast_run message w :
  broadcast message w
  = (Ok tt, push w (frames_to_entries (fun _ => true) (closed w) message
                      (map_to_list (active_connections w)))).
Proof.
  unfold broadcast, bind, get.
  apply (entries_loop_run (fun _ => true)).
Qed.

(** C5.  (1) After [connect A], [connect B], [disconnect A] for one user,
    all three calls having returned normally, [B] is in the user's list and,
    when [B] is open, [send_personal_message] puts the message on it.
    (2) When [A] is the user's only connection, [disconnect A] removes the
    user's key, and a [broadcast] made afterwards sends only to connections
    found under the keys that remain.  (3) Whatever sequence of [connect]
    and [disconnect] calls is made on a new manager, no key is ever mapped
    to an empty list. *)
Theorem disconnect_keeps_others_and_drops_empty_entry :
  forall (w : World) (u : string) (A B : WebSocket) (message : Message),
    (exists (w' : World) (conns : list WebSocket)
            (frames : list (WebSocket * Message)),
        (connect A u ;; connect B u ;; disconnect A u) w = (Ok tt, w') /\
        active_connections w' !! u = Some conns /\ B ∈ conns /\
        send_personal_message message u w' = (Ok tt, push w' frames) /\
        (B ∉ closed w -> (B, message) ∈ frames)) /\
    (active_connections w !! u = Some [A] ->
     exists (w' : World) (frames : list (WebSocket * Message)),
        disconnect A u w = (Ok tt, w') /\
        active_connections w' !! u = None /\
        broadcast message w' = (Ok tt, push w' frames) /\
        forall (ws : WebSocket) (m : Message),
          (ws, m) ∈ frames ->
          exists (u' : string) (conns : list WebSocket),
            u' <> u /\ active_connections w !! u' = Some conns /\ ws ∈ conns) /\
    (forall (cl : gset WebSocket) (ops : list registry_op),
        no_empty_entry (run_ops ops (new_world cl))).
Proof.
  intros w u A B message. split; [|split].
  - unfold bind. rewrite !connect_run. simpl.
    rewrite disconnect_run. simpl.
    rewrite !lookup_insert_eq. simpl. rewrite <- app_assoc. simpl.
    destruct (list_remove_app_last A (default [] (active_connections w !! u)) B)
      as (l' & -> & Hb).
    destruct l' as [|c cs]; [by apply elem_of_nil in Hb|].
    eexists _, (c :: cs), _. split; [reflexivity|]. simpl.
    split; [by rewrite lookup_insert_eq|]. split; [done|].
    split; [apply send_personal_message_run|].
    simpl. rewrite lookup_insert_eq. simpl.
    intros Hcl. by apply elem_of_frames_to.
  - intros Hu. rewrite disconnect_run, Hu. simpl.
    rewrite decide_True by done.
    eexists _, _. split; [reflexivity|]. simpl.
    split; [apply lookup_delete_eq|].
    split; [apply broadcast_run|]. simpl.
    intros ws m (_ & _ & u' & conns & Hin & _ & Hws)%elem_of_frames_to_entries.
    apply elem_of_map_to_list in Hin.
    exists u', conns. destruct (decide (u' = u)) as [->|Hne].
    + by rewrite lookup_delete_eq in Hin.
    + rewrite lookup_delete_ne in Hin by done. done.
  - intros cl ops. apply run_ops_no_empty_entry.
    intros u' conns. unfold new_world. simpl. by rewrite lookup_empty.
Qed.

Lemma disconnect_keeps_others_and_drops_empty_entry_witness :
  (exists (w' : World) (conns : list WebSocket)
          (frames : list (WebSocket * Message)),
      (connect 8 "farmer_7" ;; connect 9 "farmer_7" ;;
       disconnect 8 "farmer_7")%nat sample_world = (Ok tt, w') /\
      active_connections w' !! "farmer_7" = Some conns /\ 9%nat ∈ conns /\
      send_personal_message sample_message "farmer_7" w'
      = (Ok tt, push w' frames) /\
      (9%nat, sample_message) ∈ frames) /\
  (exists (w' : World) (frames : list (WebSocket * Message)),
      disconnect 3%nat "farmer_7" sample_world = (Ok tt, w') /\
      active_connections w' !! "farmer_7" = None /\
      broadcast sample_message w' = (Ok tt, push w' frames) /\
      ((3%nat, sample_message) ∉ frames)).
Proof.
  destruct (disconnect_keeps_others_and_drops_empty_entry sample_world
              "farmer_7" 8%nat 9%nat sample_message)
    as ((w1 & conns & frames & Hrun & Hu & Hin & Hsend & Hdel) & _ & _).
  destruct (disconnect_keeps_others_and_drops_empty_entry sample_world
              "farmer_7" 3%nat 9%nat sample_message)
    as (_ & Hlast & _).
  destruct (Hlast eq_refl) as (w2 & frames2 & Hrun2 & Hu2 & Hb & Hvisit).
  split.
  - exists w1, conns, frames. repeat (split; [assumption|]).
    apply Hdel. change (closed sample_world) with (∅ : gset WebSocket).
    apply not_elem_of_empty.
  - exists w2, frames2. repeat (split; [assumption|]).
    intros (u' & conns' & Hne & Hu' & Hws)%Hvisit.
    apply elem_of_map_to_list in Hu'.
    let l := eval vm_compute in
               (map_to_list (active_connections sample_world)) in
    change (map_to_list (active_connections sample_world)) with l in Hu'.
    repeat (apply elem_of_cons in Hu' as [Hu'|Hu'];
            [inversion Hu'; subst; clear Hu'|]).
    + apply list_elem_of_singleton in Hws. discriminate Hws.
    + apply list_elem_of_singleton in Hws. discriminate Hws.
    + by apply Hne.
    + by apply elem_of_nil in Hu'.
Defined.

(* ===================================================================== *)
(** ** Properties of the query routes *)
(* ===================================================================== *)

Lemma min_length_true n s : n <= len s -> min_length n s = true.
Proof. intros H. unfold min_length. by apply Z.leb_le. Qed.

Lemma min_length_false n s : len s < n -> min_length n s = false.
Proof. intros H. unfold min_length. by apply Z.leb_gt. Qed.

(** [submit_query] on a connected store, with fresh ids. *)
Lemma submit_query_run env query user db mongo :
  client db = Some mongo ->
  queries mongo !! new_query_oid env = None ->
  notifications mongo !! new_notification_oid env = None ->
  10 <= len (qc_query_text query) ->
  exists (resp : QueryResponse) (doc : QueryDoc) (n : NotificationDoc),
    submit_query env query user db
    = (Ok resp,
       with_mongo db
         {| queries := <[new_query_oid env := doc]> (queries mongo);
            notifications :=
              <[new_notification_oid env := n]> (notifications mongo) |}) /\
    (r_id resp = new_query_oid env /\ r_status resp = OPEN /\
     r_farmer_id resp = qc_farmer_id query) /\
    (status doc = OPEN /\ farmer_id doc = user_id user /\
     query_text doc = qc_query_text query /\ assigned_to doc = None) /\
    (n_user_id n = "all_officers" /\
     n_notification_type n = QUERY_SUBMITTED /\
     n_query_id n = new_query_oid env /\ n_read n = false).
Proof.
  intros Hc Hq Hn Hlen. destruct db as [cl mq]; simpl in Hc; subst cl.
  unfold_route. simpl. rewrite Hq. simpl. rewrite Hn. simpl.
  apply Z.leb_le in Hlen. rewrite Hlen.
  eexists _, _, _. split; [reflexivity|]. simpl. done.
Qed.

(** C6.  A submit request whose [query_text] has fewer than 10 characters
    (9, say) is refused with a validation error before the route runs: the
    store is as it was, so no query and no notification were created.  With
    10 characters or more, a store at hand and the generated ids unused,
    the request succeeds: the response and the stored query have status
    [open], and a notification of type [query_submitted] addressed to
    ["all_officers"] is stored for that query. *)
Theorem submit_query_text_min_length :
  forall (env : Env) (body : QueryCreate) (current_user : CurrentUser)
         (database : Database),
    (len (qc_query_text body) < 10 ->
     post_submit env body current_user database
     = (Raise RequestValidationError, database)) /\
    (10 <= len (qc_query_text body) ->
     is_Some (client database) ->
     stored_query database (new_query_oid env) = None ->
     stored_notification database (new_notification_oid env) = None ->
     exists (resp : QueryResponse) (database' : Database)
            (doc : QueryDoc) (n : NotificationDoc),
       post_submit env body current_user database = (Ok resp, database') /\
       r_status resp = OPEN /\
       stored_query database' (new_query_oid env) = Some doc /\
       status doc = OPEN /\
       stored_notification database' (new_notification_oid env) = Some n /\
       n_notification_type n = QUERY_SUBMITTED /\
       n_user_id n = "all_officers" /\
       n_query_id n = new_query_oid env).
Proof.
  intros env body user db. split.
  - intros Hlen. unfold post_submit, QueryCreate_valid.
    by rewrite min_length_false.
  - intros Hlen [mongo Hc] Hq Hn.
    unfold stored_query in Hq. unfold stored_notification in Hn.
    rewrite Hc in Hq, Hn.
    destruct (submit_query_run env body user db mongo Hc Hq Hn Hlen)
      as (resp & doc & n & Hrun & (_ & Hst & _) & (Hdoc & _) & (Hu & Ht & Hi & _)).
    eexists resp, _, doc, n.
    unfold post_submit, QueryCreate_valid. rewrite min_length_true by done.
    split; [exact Hrun|]. split; [done|].
    unfold stored_query, stored_notification, with_mongo. simpl.
    rewrite !lookup_insert_eq. done.
Qed.

Lemma submit_query_text_min_length_witness :
  post_submit sample_env (sample_body "123456789") sample_farmer
    (sample_database ∅)
  = (Raise RequestValidationError, sample_database ∅) /\
  exists (resp : QueryResponse) (database' : Database)
         (doc : QueryDoc) (n : NotificationDoc),
    post_submit sample_env (sample_body "1234567890") sample_farmer
      (sample_database ∅) = (Ok resp, database') /\
    r_status resp = OPEN /\
    stored_query database' (new_query_oid sample_env) = Some doc /\
    status doc = OPEN /\
    stored_notification database' (new_notification_oid sample_env) = Some n /\
    n_notification_type n = QUERY_SUBMITTED /\
    n_user_id n = "all_officers" /\
    n_query_id n = new_query_oid sample_env.
Proof.
  split.
  - apply (submit_query_text_min_length sample_env (sample_body "123456789")).
    reflexivity.
  - apply (submit_query_text_min_length sample_env (sample_body "1234567890")).
    + vm_compute. discriminate.
    + eexists. reflexivity.
    + reflexivity.
    + reflexivity.
Defined.

(** [reply_to_query] on a stored query, with a fresh notification id. *)
Lemma reply_to_query_run env qid body user db oid doc :
  ObjectId_parse qid = Some oid ->
  stored_query db oid = Some doc ->
  stored_notification db (new_notification_oid env) = None ->
  10 <= len (query_text doc) ->
  exists (database' : Database) (n : NotificationDoc),
    reply_to_query env qid body user db
    = (Ok (response_of_doc oid (reply_set body (utcnow_1st env) doc)),
       database') /\
    stored_query database' oid
    = Some (reply_set body (utcnow_1st env) doc) /\
    (forall oid', oid' <> oid ->
       stored_query database' oid' = stored_query db oid') /\
    stored_notification database' (new_notification_oid env) = Some n /\
    n_user_id n = farmer_id doc /\
    n_notification_type n
    = (if mark_resolved body then QUERY_RESOLVED else QUERY_REPLIED) /\
    n_query_id n = qid /\ n_read n = false.
Proof.
  intros Hp Hq Hn Hlen. open_store db Hq.
  unfold stored_notification in Hn. simpl in Hn.
  unfold_route. simpl. rewrite Hp. simpl. rewrite Hq. simpl.
  rewrite Hn. simpl. apply Z.leb_le in Hlen. rewrite Hlen.
  eexists _, _. split; [reflexivity|]. simpl.
  rewrite !lookup_insert_eq.
  split; [done|]. split; [intros oid' Hne; by rewrite lookup_insert_ne|].
  split; [done|]. simpl. by destruct (mark_resolved body).
Qed.

(** [assign_query] on a stored query, with a fresh notification id. *)
Lemma assign_query_run env qid user db oid doc :
  ObjectId_parse qid = Some oid ->
  stored_query db oid = Some doc ->
  stored_notification db (new_notification_oid env) = None ->
  10 <= len (query_text doc) ->
  exists (database' : Database) (n : NotificationDoc),
    assign_query env qid user db
    = (Ok (response_of_doc oid
             (assign_set (user_id user) (utcnow_1st env) doc)),
       database') /\
    stored_query database' oid
    = Some (assign_set (user_id user) (utcnow_1st env) doc) /\
    (forall oid', oid' <> oid ->
       stored_query database' oid' = stored_query db oid') /\
    stored_notification database' (new_notification_oid env) = Some n /\
    n_user_id n = farmer_id doc /\
    n_notification_type n = QUERY_ASSIGNED /\
    n_query_id n = qid /\ n_read n = false.
Proof.
  intros Hp Hq Hn Hlen. open_store db Hq.
  unfold stored_notification in Hn. simpl in Hn.
  unfold_route. simpl. rewrite Hp. simpl. rewrite Hq. simpl.
  rewrite Hn. simpl. apply Z.leb_le in Hlen. rewrite Hlen.
  eexists _, _. split; [reflexivity|]. simpl.
  rewrite !lookup_insert_eq.
  split; [done|]. split; [intros oid' Hne; by rewrite lookup_insert_ne|].
  done.
Qed.

(** A well-formed id that the store does not hold. *)
Lemma unknown_id_not_found env qid body user db oid :
  is_Some (client db) ->
  ObjectId_parse qid = Some oid ->
  stored_query db oid = None ->
  assign_query env qid user db
  = (Raise (HTTPException HTTP_404_NOT_FOUND "Query not found"), db) /\
  reply_to_query env qid body user db
  = (Raise (HTTPException HTTP_404_NOT_FOUND "Query not found"), db).
Proof.
  intros [mongo Hc] Hp Hq. destruct db as [cl mq]. simpl in Hc. subst cl.
  unfold stored_query in Hq. simpl in Hq.
  unfold_route. simpl. rewrite Hp. simpl. rewrite Hq. simpl.
  destruct mongo. done.
Qed.

(** A malformed id, or no store at all: the bare [except:] around the
    update turns either into "Invalid query ID". *)
Lemma update_failure_bad_request env qid body user db :
  ObjectId_parse qid = None \/ client db = None ->
  assign_query env qid user db
  = (Raise (HTTPException HTTP_400_BAD_REQUEST "Invalid query ID"), db) /\
  reply_to_query env qid body user db
  = (Raise (HTTPException HTTP_400_BAD_REQUEST "Invalid query ID"), db).
Proof.
  intros H. destruct db as [cl mq]. unfold_route. simpl.
  destruct cl as [mongo|]; simpl.
  - destruct H as [Hp|Hc]; [|discriminate Hc]. by rewrite Hp.
  - by destruct (ObjectId_parse qid).
Qed.

(** C7.  An officer's reply of at least 20 characters to a stored query in
    status [assigned] succeeds.  The reply text is stored on the query; the
    status becomes [resolved] when [mark_resolved] is set and stays
    [assigned] otherwise; and a notification addressed to the query's
    [farmer_id] is stored, of type [query_resolved] when [mark_resolved] is
    set and [query_replied] otherwise. *)
Theorem reply_to_assigned_query :
  forall (env : Env) (qid : string) (body : OfficerReply)
         (current_user : CurrentUser) (database : Database)
         (oid : string) (doc : QueryDoc),
    ObjectId_parse qid = Some oid ->
    stored_query database oid = Some doc ->
    status doc = ASSIGNED ->
    stored_notification database (new_notification_oid env) = None ->
    10 <= len (query_text doc) ->
    20 <= len (reply_text body) ->
    exists (resp : QueryResponse) (database' : Database)
           (doc' : QueryDoc) (n : NotificationDoc),
      post_reply env qid body current_user database = (Ok resp, database') /\
      stored_query database' oid = Some doc' /\
      status doc' = (if mark_resolved body then RESOLVED else ASSIGNED) /\
      reply doc' = Some (reply_text body) /\
      r_status resp = status doc' /\
      r_reply resp = Some (reply_text body) /\
      stored_notification database' (new_notification_oid env) = Some n /\
      n_user_id n = farmer_id doc /\
      n_notification_type n
      = (if mark_resolved body then QUERY_RESOLVED else QUERY_REPLIED).
Proof.
  intros env qid body user db oid doc Hp Hq Hst Hn Hlen Hbody.
  destruct (reply_to_query_run env qid body user db oid doc Hp Hq Hn Hlen)
    as (db' & n & Hrun & Hq' & _ & Hn' & Hu & Ht & _).
  eexists _, db', _, n.
  unfold post_reply, OfficerReply_valid. rewrite min_length_true by done.
  split; [exact Hrun|]. split; [exact Hq'|]. simpl. rewrite Hst. done.
Qed.

Lemma reply_to_assigned_query_witness :
  exists (resp : QueryResponse) (database' : Database)
         (doc' : QueryDoc) (n : NotificationDoc),
    post_reply sample_env sample_query_oid (sample_reply true)
      sample_officer_A
      (sample_database
         {[ sample_query_oid :=
              sample_doc ASSIGNED (Some (user_id sample_officer_A)) ]})
    = (Ok resp, database') /\
    stored_query database' sample_query_oid = Some doc' /\
    status doc' = RESOLVED /\
    reply doc' = Some "Spray neem oil each week." /\
    r_status resp = status doc' /\
    r_reply resp = Some "Spray neem oil each week." /\
    stored_notification database' sample_notification_oid = Some n /\
    n_user_id n = user_id sample_farmer /\
    n_notification_type n = QUERY_RESOLVED.
Proof.
  apply (reply_to_assigned_query sample_env sample_query_oid
           (sample_reply true) sample_officer_A _ sample_query_oid
           (sample_doc ASSIGNED (Some (user_id sample_officer_A)))).
  - reflexivity.
  - reflexivity.
  - reflexivity.
  - reflexivity.
  - vm_compute. discriminate.
  - vm_compute. discriminate.
Defined.

(** C10.  The [farmer_id] a client writes in the body of a submit request
    has no effect on the store: whatever it is, the request leaves the same
    store behind, and when the request succeeds the query it stored is
    owned by the authenticated caller.  The response, however, repeats the
    [farmer_id] of the body. *)
Theorem submit_query_owner_is_caller :
  forall (env : Env) (body : QueryCreate) (fid : string)
         (current_user : CurrentUser) (database : Database),
    (post_submit env (set_farmer_id fid body) current_user database).2
    = (post_submit env body current_user database).2 /\
    forall resp : QueryResponse,
      (post_submit env body current_user database).1 = Ok resp ->
      farmer_id <$>
        stored_query (post_submit env body current_user database).2
          (new_query_oid env)
      = Some (user_id current_user) /\
      r_farmer_id resp = qc_farmer_id body.
Proof.
  intros env body fid user db. destruct db as [cl mq].
  unfold_route. simpl.
  destruct (10 <=? len (qc_query_text body)) eqn:Hlen; simpl; [|done].
  destruct cl as [mongo|]; simpl; [|done].
  destruct (queries mongo !! new_query_oid env) eqn:Hq; simpl; [done|].
  destruct (notifications mongo !! new_notification_oid env) eqn:Hn; simpl;
    [done|].
  split; [done|].
  intros resp [= <-]. simpl. by rewrite lookup_insert_eq.
Qed.

Lemma submit_query_owner_is_caller_witness :
  exists resp : QueryResponse,
    (post_submit sample_env (sample_body "Leaves are curling")
       sample_farmer (sample_database ∅)).1 = Ok resp /\
    farmer_id <$>
      stored_query
        (post_submit sample_env (sample_body "Leaves are curling")
           sample_farmer (sample_database ∅)).2
        (new_query_oid sample_env)
    = Some (user_id sample_farmer) /\
    r_farmer_id resp = "someone-else".
Proof.
  eexists. split; [reflexivity|].
  apply (proj2 (submit_query_owner_is_caller sample_env
                  (sample_body "Leaves are curling") "anyone"
                  sample_farmer (sample_database ∅))).
  reflexivity.
Defined.

(** C1, as the code has it.  [assign_query] looks the query up by id alone
    and never answers Conflict.  On every stored query, whatever its
    status, it succeeds (a notification id being free): the query is
    rewritten with status [assigned] and [assigned_to] the caller, and a
    [query_assigned] notification for the farmer is stored. *)
Theorem assign_query_unconditional :
  forall (env : Env) (qid : string) (current_user : CurrentUser)
         (database : Database),
    http_status HTTP_200_OK (assign_query env qid current_user database).1
    <> HTTP_409_CONFLICT /\
    forall (oid : string) (doc : QueryDoc),
      ObjectId_parse qid = Some oid ->
      stored_query database oid = Some doc ->
      stored_notification database (new_notification_oid env) = None ->
      10 <= len (query_text doc) ->
      exists (resp : QueryResponse) (database' : Database)
             (doc' : QueryDoc) (n : NotificationDoc),
        assign_query env qid current_user database = (Ok resp, database') /\
        stored_query database' oid = Some doc' /\
        status doc' = ASSIGNED /\
        assigned_to doc' = Some (user_id current_user) /\
        r_status resp = ASSIGNED /\
        r_assigned_to resp = Some (user_id current_user) /\
        stored_notification database' (new_notification_oid env) = Some n /\
        n_user_id n = farmer_id doc /\
        n_notification_type n = QUERY_ASSIGNED.
Proof.
  intros env qid user db. split.
  - destruct db as [cl mq]. unfold_route. simpl.
    destruct cl as [mongo|]; simpl;
      destruct (ObjectId_parse qid) as [oid|]; simpl; try discriminate.
    destruct (queries mongo !! oid); simpl; [|discriminate].
    destruct (notifications mongo !! new_notification_oid env); simpl;
      [discriminate|].
    destruct (10 <=? len (query_text q)); simpl; discriminate.
  - intros oid doc Hp Hq Hn Hlen.
    destruct (assign_query_run env qid user db oid doc Hp Hq Hn Hlen)
      as (db' & n & Hrun & Hq' & _ & Hn' & Hu & Ht & _).
    eexists _, db', _, n.
    split; [exact Hrun|]. split; [exact Hq'|]. done.
Qed.

(** C1, the counterexample.  Query [sample_query_oid] is assigned to
    officer A; officer B calls assign on it.  The call returns 200, and the
    stored query is now assigned to officer B. *)
Lemma assign_query_reassigns_counterexample :
  let database :=
    sample_database
      {[ sample_query_oid :=
           sample_doc ASSIGNED (Some (user_id sample_officer_A)) ]} in
  let run := assign_query sample_env sample_query_oid sample_officer_B
               database in
  (status <$> stored_query database sample_query_oid = Some ASSIGNED /\
   http_status HTTP_200_OK run.1 = 200 /\
   assigned_to <$> stored_query run.2 sample_query_oid
   = Some (Some (user_id sample_officer_B))) /\
  ~ assign_conflict_rule.
Proof.
  split; [by vm_compute|].
  intros Hrule.
  destruct (Hrule sample_env sample_query_oid sample_officer_B
              (sample_database
                 {[ sample_query_oid :=
                      sample_doc ASSIGNED (Some (user_id sample_officer_A)) ]})
              sample_query_oid
              (sample_doc ASSIGNED (Some (user_id sample_officer_A))))
    as [detail Hrun]; [reflexivity|reflexivity|by left|].
  vm_compute in Hrun. discriminate Hrun.
Qed.

Lemma assign_query_unconditional_witness :
  exists (resp : QueryResponse) (database' : Database)
         (doc' : QueryDoc) (n : NotificationDoc),
    assign_query sample_env sample_query_oid sample_officer_B
      (sample_database
         {[ sample_query_oid :=
              sample_doc RESOLVED (Some (user_id sample_officer_A)) ]})
    = (Ok resp, database') /\
    stored_query database' sample_query_oid = Some doc' /\
    status doc' = ASSIGNED /\
    assigned_to doc' = Some (user_id sample_officer_B) /\
    r_status resp = ASSIGNED /\
    r_assigned_to resp = Some (user_id sample_officer_B) /\
    stored_notification database' sample_notification_oid = Some n /\
    n_user_id n = user_id sample_farmer /\
    n_notification_type n = QUERY_ASSIGNED.
Proof.
  apply (proj2 (assign_query_unconditional sample_env sample_query_oid
                  sample_officer_B _)
           sample_query_oid
           (sample_doc RESOLVED (Some (user_id sample_officer_A)))).
  - reflexivity.
  - reflexivity.
  - reflexivity.
  - vm_compute. discriminate.
Defined.

(** C3, as the code has it.  [reply_to_query] does not look at the status:
    a reply to a [closed] query is stored like any other, with its
    notification, and the status stays [closed] unless [mark_resolved]
    makes it [resolved].  A well-formed id that the store does not hold is
    answered 404 "Query not found" by assign and by reply, and a malformed
    id 400 "Invalid query ID"; in both cases the store is as it was, so no
    notification was created. *)
Theorem reply_ignores_status_unknown_id_rejected :
  forall (env : Env) (qid : string) (body : OfficerReply)
         (current_user : CurrentUser) (database : Database),
    (forall (oid : string) (doc : QueryDoc),
       ObjectId_parse qid = Some oid ->
       stored_query database oid = Some doc ->
       status doc = CLOSED ->
       stored_notification database (new_notification_oid env) = None ->
       10 <= len (query_text doc) ->
       20 <= len (reply_text body) ->
       exists (resp : QueryResponse) (database' : Database)
              (doc' : QueryDoc) (n : NotificationDoc),
         post_reply env qid body current_user database
         = (Ok resp, database') /\
         stored_query database' oid = Some doc' /\
         reply doc' = Some (reply_text body) /\
         status doc' = (if mark_resolved body then RESOLVED else CLOSED) /\
         stored_notification database' (new_notification_oid env) = Some n /\
         n_user_id n = farmer_id doc) /\
    (forall oid : string,
       is_Some (client database) ->
       ObjectId_parse qid = Some oid ->
       stored_query database oid = None ->
       assign_query env qid current_user database
       = (Raise (HTTPException HTTP_404_NOT_FOUND "Query not found"),
          database) /\
       reply_to_query env qid body current_user database
       = (Raise (HTTPException HTTP_404_NOT_FOUND "Query not found"),
          database)) /\
    (ObjectId_parse qid = None ->
     assign_query env qid current_user database
     = (Raise (HTTPException HTTP_400_BAD_REQUEST "Invalid query ID"),
        database) /\
     reply_to_query env qid body current_user database
     = (Raise (HTTPException HTTP_400_BAD_REQUEST "Invalid query ID"),
        database)).
Proof.
  intros env qid body user db. split; [|split].
  - intros oid doc Hp Hq Hst Hn Hlen Hbody.
    destruct (reply_to_query_run env qid body user db oid doc Hp Hq Hn Hlen)
      as (db' & n & Hrun & Hq' & _ & Hn' & Hu & _).
    eexists _, db', _, n.
    unfold post_reply, OfficerReply_valid. rewrite min_length_true by done.
    split; [exact Hrun|]. split; [exact Hq'|]. simpl. rewrite Hst. done.
  - intros oid Hc Hp Hq. by apply (unknown_id_not_found _ _ _ _ _ oid).
  - intros Hp. apply update_failure_bad_request. by left.
Qed.

Lemma reply_ignores_status_unknown_id_rejected_witness :
  (exists (resp : QueryResponse) (database' : Database)
          (doc' : QueryDoc) (n : NotificationDoc),
     post_reply sample_env sample_query_oid (sample_reply false)
       sample_officer_A
       (sample_database {[ sample_query_oid := sample_doc CLOSED None ]})
     = (Ok resp, database') /\
     stored_query database' sample_query_oid = Some doc' /\
     reply doc' = Some "Spray neem oil each week." /\
     status doc' = CLOSED /\
     stored_notification database' sample_notification_oid = Some n /\
     n_user_id n = user_id sample_farmer) /\
  (assign_query sample_env sample_other_oid sample_officer_A
     (sample_database {[ sample_query_oid := sample_doc OPEN None ]})
   = (Raise (HTTPException 404 "Query not found"),
      sample_database {[ sample_query_oid := sample_doc OPEN None ]}) /\
   reply_to_query sample_env sample_other_oid (sample_reply false)
     sample_officer_A
     (sample_database {[ sample_query_oid := sample_doc OPEN None ]})
   = (Raise (HTTPException 404 "Query not found"),
      sample_database {[ sample_query_oid := sample_doc OPEN None ]})) /\
  (assign_query sample_env "42" sample_officer_A (sample_database ∅)
   = (Raise (HTTPException 400 "Invalid query ID"), sample_database ∅) /\
   reply_to_query sample_env "42" (sample_reply false) sample_officer_A
     (sample_database ∅)
   = (Raise (HTTPException 400 "Invalid query ID"), sample_database ∅)).
Proof.
  split; [|split].
  - apply (proj1 (reply_ignores_status_unknown_id_rejected sample_env
                    sample_query_oid (sample_reply false) sample_officer_A _)
             sample_query_oid (sample_doc CLOSED None)).
    + reflexivity.
    + reflexivity.
    + reflexivity.
    + reflexivity.
    + vm_compute. discriminate.
    + vm_compute. discriminate.
  - apply (proj1 (proj2 (reply_ignores_status_unknown_id_rejected sample_env
                    sample_other_oid (sample_reply false) sample_officer_A _))
             sample_other_oid).
    + eexists. reflexivity.
    + reflexivity.
    + reflexivity.
  - apply (proj2 (proj2 (reply_ignores_status_unknown_id_rejected sample_env
                    "42" (sample_reply false) sample_officer_A _))).
    reflexivity.
Defined.

(** C3, the counterexample.  Query [sample_query_oid] is [closed]; an
    officer replies to it.  The call returns 200, the reply is on the
    stored query and a notification for the farmer has been stored. *)
Lemma reply_to_closed_query_counterexample :
  let database :=
    sample_database {[ sample_query_oid := sample_doc CLOSED None ]} in
  let run := post_reply sample_env sample_query_oid (sample_reply false)
               sample_officer_A database in
  (status <$> stored_query database sample_query_oid = Some CLOSED /\
   http_status HTTP_200_OK run.1 = 200 /\
   reply <$> stored_query run.2 sample_query_oid
   = Some (Some "Spray neem oil each week.") /\
   n_notification_type <$> stored_notification run.2 sample_notification_oid
   = Some QUERY_REPLIED) /\
  ~ closed_reply_rule.
Proof.
  split; [by vm_compute|].
  intros Hrule.
  destruct (Hrule sample_env sample_query_oid (sample_reply false)
              sample_officer_A
              (sample_database {[ sample_query_oid := sample_doc CLOSED None ]})
              sample_query_oid (sample_doc CLOSED None))
    as [e Hrun]; [reflexivity|reflexivity|reflexivity|].
  vm_compute in Hrun. discriminate Hrun.
Qed.

(** C4.  With no store ([client] is [None]) the query routes do not fall
    back on [mock_queries].  A valid submit request dies on the [None]
    collection with an [AttributeError], which the client sees as 500;
    assign and reply wrap the same error into 400 "Invalid query ID".
    Nothing is recorded anywhere. *)
Theorem query_routes_without_store_fail :
  forall (env : Env) (body : QueryCreate) (qid : string)
         (reply : OfficerReply) (current_user : CurrentUser)
         (database : Database),
    client database = None ->
    QueryCreate_valid body = true ->
    post_submit env body current_user database
    = (Raise AttributeError, database) /\
    http_status HTTP_201_CREATED
      (post_submit env body current_user database).1 = 500 /\
    assign_query env qid current_user database
    = (Raise (HTTPException HTTP_400_BAD_REQUEST "Invalid query ID"),
       database) /\
    reply_to_query env qid reply current_user database
    = (Raise (HTTPException HTTP_400_BAD_REQUEST "Invalid query ID"),
       database).
Proof.
  intros env body qid reply user db Hc Hv.
  assert (Hsub : post_submit env body user db = (Raise AttributeError, db)).
  { unfold post_submit. rewrite Hv. destruct db as [cl mq].
    simpl in Hc. subst cl. reflexivity. }
  rewrite Hsub. split; [done|]. split; [done|].
  apply update_failure_bad_request. by right.
Qed.

Lemma query_routes_without_store_fail_witness :
  post_submit sample_env (sample_body "Leaves are curling") sample_farmer
    no_database
  = (Raise AttributeError, no_database) /\
  http_status HTTP_201_CREATED
    (post_submit sample_env (sample_body "Leaves are curling") sample_farmer
       no_database).1 = 500 /\
  assign_query sample_env sample_query_oid sample_officer_A no_database
  = (Raise (HTTPException HTTP_400_BAD_REQUEST "Invalid query ID"),
     no_database) /\
  reply_to_query sample_env sample_query_oid (sample_reply true)
    sample_officer_A no_database
  = (Raise (HTTPException HTTP_400_BAD_REQUEST "Invalid query ID"),
     no_database).
Proof.
  apply (query_routes_without_store_fail sample_env
           (sample_body "Leaves are curling") sample_query_oid
           (sample_reply true) sample_officer_A no_database).
  - reflexivity.
  - reflexivity.
Defined.

(** *** Statistics *)



Lemma count_where_le matches qs :
  0 <= count_where matches qs <= Z.of_nat (size qs).
Proof.
  unfold count_where. split; [lia|].
  apply Nat2Z.inj_le, map_size_filter.
Qed.

Lemma count_where_all qs : count_where (fun _ => true) qs = Z.of_nat (size qs).
Proof.
  unfold count_where. f_equal. f_equal. by apply map_filter_id.
Qed.

(** [get_statistics] on a connected store. *)
Lemma get_statistics_run user db mongo :
  client db = Some mongo ->
  get_statistics user db
  = (Ok {| total := Z.of_nat (size (queries mongo));
           open := count_where (fun d => bool_decide (status d = OPEN))
                     (queries mongo);
           assigned := count_where (fun d => bool_decide (status d = ASSIGNED))
                         (queries mongo);
           resolved := count_where (fun d => bool_decide (status d = RESOLVED))
                         (queries mongo);
           urgent := count_where
                       (fun d => bool_decide (urgency d = HIGH)
                                 && negb (bool_decide (status d = RESOLVED)))
                       (queries mongo);
           resolution_rate :=
             round (if 0 <? Z.of_nat (size (queries mongo))
                    then (inject_Z
                            (count_where
                               (fun d => bool_decide (status d = RESOLVED))
                               (queries mongo))
                          / inject_Z (Z.of_nat (size (queries mongo))) * 100)%Q
                    else 0%Q) 2 |},
     db).
Proof.
  intros Hc. destruct db as [cl mq]. simpl in Hc. subst cl.
  unfold get_statistics, count_documents, get_queries_collection,
    get_database, call_method, bind, get, ret. simpl.
  fold (count_where (fun _ => true) (queries mongo)).
  rewrite count_where_all. destruct mongo. reflexivity.
Qed.




(* ===================================================================== *)
(** ** Properties of the reading routes *)
(* ===================================================================== *)

Lemma with_mongo_same db mongo :
  client db = Some mongo -> with_mongo db mongo = db.
Proof. destruct db; simpl; intros ->; reflexivity. Qed.

(** [get_query_details] in one step. *)
Lemma get_query_details_run qid user db :
  get_query_details qid user db
  = match client db, ObjectId_parse qid with
    | Some mongo, Some oid =>
        match queries mongo !! oid with
        | None =>
            (Raise (HTTPException HTTP_404_NOT_FOUND "Query not found"), db)
        | Some doc =>
            if String.eqb (role user) "farmer"
               && negb (String.eqb (farmer_id doc) (user_id user))
            then (Raise (HTTPException HTTP_403_FORBIDDEN "Access denied"), db)
            else if min_length 10 (query_text doc)
            then (Ok (response_of_doc oid doc), db)
            else (Raise ValidationError, db)
        end
    | _, _ =>
        (Raise (HTTPException HTTP_400_BAD_REQUEST "Invalid query ID"), db)
    end.
Proof.
  destruct db as [cl mq].
  unfold get_query_details, find_one. unfold_route. simpl.
  destruct cl as [mongo|]; simpl;
    destruct (ObjectId_parse qid) as [oid|]; simpl; try reflexivity.
  destruct mongo as [qs ns]. simpl.
  destruct (qs !! oid) as [doc|]; simpl; [|reflexivity].
  destruct (String.eqb (role user) "farmer"
            && negb (String.eqb (farmer_id doc) (user_id user))); simpl;
    [reflexivity|].
  unfold min_length. by destruct (10 <=? len (query_text doc)).
Qed.

(** X1.  [get_query_details] only reads.  What it returns is the stored
    query under the id asked for; a caller whose role is ["farmer"] gets a
    query only when its [farmer_id] is the caller's own id, and is told 403
    "Access denied" for any other stored query. *)
Theorem get_query_details_access :
  forall (qid : string) (current_user : CurrentUser) (database : Database),
    (get_query_details qid current_user database).2 = database /\
    (forall resp : QueryResponse,
       (get_query_details qid current_user database).1 = Ok resp ->
       exists (oid : string) (doc : QueryDoc),
         ObjectId_parse qid = Some oid /\
         stored_query database oid = Some doc /\
         resp = response_of_doc oid doc /\
         (role current_user = "farmer" ->
          farmer_id doc = user_id current_user)) /\
    (forall (oid : string) (doc : QueryDoc),
       ObjectId_parse qid = Some oid ->
       stored_query database oid = Some doc ->
       role current_user = "farmer" ->
       farmer_id doc <> user_id current_user ->
       (get_query_details qid current_user database).1
       = Raise (HTTPException HTTP_403_FORBIDDEN "Access denied")).
Proof.
  intros qid user db. rewrite get_query_details_run.
  unfold stored_query.
  destruct (client db) as [mongo|]; [|by repeat split].
  destruct (ObjectId_parse qid) as [oid|]; [|by repeat split].
  destruct (queries mongo !! oid) as [doc|] eqn:Hq.
  - destruct (String.eqb (role user) "farmer") eqn:Hr; simpl.
    + destruct (String.eqb (farmer_id doc) (user_id user)) eqn:Hf; simpl.
      * apply String.eqb_eq in Hf.
        destruct (min_length 10 (query_text doc)); simpl.
        -- split; [done|]. split.
           ++ intros resp [= <-]. by exists oid, doc.
           ++ intros oid' doc' [= <-]. rewrite Hq. intros [= <-]. done.
        -- split; [done|]. split; [done|].
           intros oid' doc' [= <-]. rewrite Hq. intros [= <-]. done.
      * split; [done|]. split; [done|]. done.
    + apply String.eqb_neq in Hr.
      destruct (min_length 10 (query_text doc)); simpl.
      * split; [done|]. split; [|done].
        intros resp [= <-]. by exists oid, doc.
      * by repeat split.
  - split; [done|]. split; [done|].
    intros oid' doc' [= <-]. by rewrite Hq.
Qed.



(** Building the responses for a list of documents: all of them, in
    order, unless one has a [query_text] the response model refuses. *)
Lemma map_each_responses (qs : list (string * QueryDoc)) (db : Database) :
  map_each qs
    (fun '(_id, query_doc) => QueryResponse_new (response_of_doc _id query_doc))
    db
  = if forallb (fun kv => min_length 10 (query_text kv.2)) qs
    then (Ok ((fun kv => response_of_doc kv.1 kv.2) <$> qs), db)
    else (Raise ValidationError, db).
Proof.
  induction qs as [|[oid doc] qs IH]; [done|].
  cbn [map_each forallb fmap list_fmap]. unfold bind at 1.
  unfold QueryResponse_new at 1. cbn [r_query_text response_of_doc snd fst].
  destruct (min_length 10 (query_text doc)); [|done].
  unfold ret at 1. unfold bind at 1. rewrite IH.
  by destruct (forallb _ qs).
Qed.

(** [get_query_history] in one step. *)
Lemma get_query_history_run user st limit db :
  get_query_history user st limit db
  = match client db with
    | None => (Raise AttributeError, db)
    | Some mongo =>
        if limit <? 0 then (Raise ValueError, db)
        else if forallb (fun kv => min_length 10 (query_text kv.2))
                  (history_docs user st limit mongo)
        then (Ok ((fun kv => response_of_doc kv.1 kv.2)
                    <$> history_docs user st limit mongo), db)
        else (Raise ValidationError, db)
    end.
Proof.
  destruct db as [cl mq].
  unfold get_query_history, find_sort_to_list, get_queries_collection,
    get_database, call_method, bind, get, ret. simpl.
  destruct cl as [mongo|]; simpl; [|done].
  destruct mongo as [qs ns]. simpl.
  destruct (limit <? 0); simpl; [done|].
  rewrite map_each_responses. reflexivity.
Qed.

#[global] Instance newer_first_total : Total newer_first.
Proof. intros a b. unfold newer_first. lia. Qed.

#[global] Instance newer_first_trans : Transitive newer_first.
Proof. intros a b c. unfold newer_first. lia. Qed.

(** Every document read for the history is stored and passes the filter. *)
Lemma elem_of_history_docs user st limit mongo oid doc :
  (oid, doc) ∈ history_docs user st limit mongo ->
  queries mongo !! oid = Some doc /\ history_filter user st doc = true.
Proof.
  unfold history_docs. intros Hin.
  apply elem_of_take in Hin as (i & Hin & _).
  apply list_elem_of_lookup_2 in Hin.
  rewrite merge_sort_Permutation in Hin.
  apply elem_of_map_to_list in Hin.
  by apply map_lookup_filter_Some in Hin.
Qed.

(** [get_history] in one step. *)
Lemma get_history_run user st limit db :
  get_history user st limit db
  = if default 50 limit <=? 100
    then get_query_history user st (default 50 limit) db
    else (Raise RequestValidationError, db).
Proof. unfold get_history. by destruct (default 50 limit <=? 100). Qed.

(** What a successful [get_history] returned. *)
Lemma get_history_ok user st limit db resps :
  (get_history user st limit db).1 = Ok resps ->
  exists mongo : MongoDB,
    client db = Some mongo /\
    0 <= default 50 limit <= 100 /\
    resps = (fun kv => response_of_doc kv.1 kv.2)
              <$> history_docs user st (default 50 limit) mongo.
Proof.
  rewrite get_history_run.
  destruct (default 50 limit <=? 100) eqn:Hle; [|done].
  rewrite get_query_history_run.
  destruct (client db) as [mongo|]; [|done].
  destruct (default 50 limit <? 0) eqn:Hlt; [done|].
  destruct (forallb _ _); [|done].
  intros [= <-]. exists mongo. split; [done|]. split; [lia|done].
Qed.

(** X3.  [get_history] only reads, and what it lists are stored queries
    that pass the caller's filter: a caller whose role is ["farmer"] is
    shown queries whose [farmer_id] is the caller's own id and no others,
    and the [status] argument makes no difference for such a caller; a
    caller whose role is ["officer"] and who gives a status is shown
    queries in that status only. *)
Theorem history_visibility :
  forall (current_user : CurrentUser) (status_arg : option QueryStatus)
         (limit : option Z) (database : Database),
    (get_history current_user status_arg limit database).2 = database /\
    (forall resps : list QueryResponse,
       (get_history current_user status_arg limit database).1 = Ok resps ->
       Forall (fun r =>
                 (exists doc : QueryDoc,
                    stored_query database (r_id r) = Some doc /\
                    r = response_of_doc (r_id r) doc) /\
                 (role current_user = "farmer" ->
                  r_farmer_id r = user_id current_user) /\
                 (forall s : QueryStatus,
                    role current_user = "officer" ->
                    status_arg = Some s -> r_status r = s))
              resps) /\
    (role current_user = "farmer" ->
     get_history current_user status_arg limit database
     = get_history current_user None limit database).
Proof.
  intros user st limit db. split; [|split].
  - rewrite get_history_run. destruct (default 50 limit <=? 100); [|done].
    rewrite get_query_history_run. by repeat case_match.
  - intros resps (mongo & Hc & _ & ->)%get_history_ok.
    apply Forall_fmap, Forall_forall. intros [oid doc] Hin. simpl.
    apply elem_of_history_docs in Hin as [Hq Hf].
    unfold stored_query. rewrite Hc.
    split; [by exists doc|]. unfold history_filter in Hf. split.
    + intros Hr. rewrite Hr in Hf. simpl in Hf. by apply String.eqb_eq.
    + intros s Hr ->. rewrite Hr in Hf. simpl in Hf.
      by apply bool_decide_eq_true in Hf.
  - intros Hr. rewrite !get_history_run.
    destruct (default 50 limit <=? 100); [|done].
    rewrite !get_query_history_run. unfold history_docs, history_filter.
    by rewrite Hr.
Qed.

(** X4.  What [get_history] lists is newest first, holds no query twice,
    and has at most [limit] entries, [limit] being 50 when the caller gives
    none and never more than 100: a larger [limit] is refused before the
    store is read. *)
Theorem history_order_and_bound :
  forall (current_user : CurrentUser) (status_arg : option QueryStatus)
         (limit : option Z) (database : Database),
    (100 < default 50 limit ->
     get_history current_user status_arg limit database
     = (Raise RequestValidationError, database)) /\
    (forall resps : list QueryResponse,
       (get_history current_user status_arg limit database).1 = Ok resps ->
       StronglySorted (fun a b => r_created_at b <= r_created_at a) resps /\
       NoDup (r_id <$> resps) /\
       Z.of_nat (length resps) <= default 50 limit <= 100).
Proof.
  intros user st limit db. split.
  - intros Hgt. rewrite get_history_run.
    by rewrite (proj2 (Z.leb_gt _ _) Hgt).
  - intros resps (mongo & Hc & Hlim & ->)%get_history_ok.
    unfold history_docs.
    set (all := merge_sort newer_first _).
    assert (Hsorted : StronglySorted newer_first all).
    { apply StronglySorted_merge_sort; apply _. }
    rewrite <- (take_drop (Z.to_nat (default 50 limit)) all) in Hsorted.
    apply StronglySorted_app_1_l in Hsorted.
    split; [|split].
    + by apply (StronglySorted_fmap _ newer_first).
    + rewrite <- list_fmap_compose.
      assert (Hnd : NoDup (all.*1)).
      { unfold all. rewrite merge_sort_Permutation.
        apply NoDup_fst_map_to_list. }
      rewrite <- (take_drop (Z.to_nat (default 50 limit)) all) in Hnd.
      rewrite fmap_app in Hnd. by apply NoDup_app in Hnd as [? _].
    + rewrite length_fmap, length_take. lia.
Qed.

(** X5.  When no more stored queries pass the caller's filter than
    [limit] allows, a successful [get_history] lists every one of them. *)
Theorem history_complete :
  forall (current_user : CurrentUser) (status_arg : option QueryStatus)
         (limit : option Z) (database : Database)
         (resps : list QueryResponse),
    (get_history current_user status_arg limit database).1 = Ok resps ->
    count_where (history_filter current_user status_arg)
      (stored_queries database)
    <= default 50 limit ->
    forall (oid : string) (doc : QueryDoc),
      stored_query database oid = Some doc ->
      history_filter current_user status_arg doc = true ->
      response_of_doc oid doc ∈ resps.
Proof.
  intros user st limit db resps (mongo & Hc & Hlim & ->)%get_history_ok.
  unfold stored_query, stored_queries. rewrite Hc.
  intros Hcount oid doc Hq Hf.
  apply (list_elem_of_fmap_2 (fun kv => response_of_doc kv.1 kv.2) _ (oid, doc)).
  unfold history_docs. rewrite take_ge.
  - rewrite merge_sort_Permutation. apply elem_of_map_to_list.
    by apply map_lookup_filter_Some.
  - rewrite merge_sort_Permutation, length_map_to_list.
    unfold count_where in Hcount. lia.
Qed.

Lemma post_submit_step env body user db :
  store_step db (post_submit env body user db).2.
Proof.
  destruct db as [cl mq]. unfold_route. simpl.
  destruct (10 <=? len (qc_query_text body)); simpl; [|by left].
  destruct cl as [mongo|]; simpl; [|by left].
  destruct (queries mongo !! new_query_oid env) eqn:Hq; simpl.
  { left. by destruct mongo. }
  destruct (notifications mongo !! new_notification_oid env) eqn:Hn; simpl.
  - right. eexists mongo, _. split; [done|]. split; [reflexivity|]. simpl.
    split; [eapply write_new; [eassumption| | |reflexivity]; reflexivity|by apply notify_nothing].
  - right. eexists mongo, _. split; [done|]. split; [reflexivity|]. simpl.
    split; [eapply write_new; [eassumption| | |reflexivity]; reflexivity|eapply notify_new; [eassumption|reflexivity]].
Qed.

Lemma update_step (set : QueryDoc -> QueryDoc) notification env qid db
    (Hset : forall qs oid doc,
        qs !! oid = Some doc -> query_write qs (<[oid := set doc]> qs)) :
  store_step db
    ((queries_collection <- get_queries_collection ;;
      result <-
        try_except
          (oid <- ObjectId qid ;;
           find_one_and_update queries_collection oid set)
          (fun _ =>
             raise (HTTPException HTTP_400_BAD_REQUEST "Invalid query ID")) ;;
      match result with
      | None => raise (HTTPException HTTP_404_NOT_FOUND "Query not found")
      | Some (_id, result) =>
          notifications_collection <- get_notifications_collection ;;
          notifications_insert_one notifications_collection
            (new_notification_oid env) (notification result) ;;
          QueryResponse_new (response_of_doc _id result)
      end) db).2.
Proof.
  destruct db as [cl mq]. unfold_route. simpl.
  destruct cl as [mongo|]; simpl;
    destruct (ObjectId_parse qid) as [oid|]; simpl; try by left.
  destruct (queries mongo !! oid) as [doc|] eqn:Hq; simpl.
  2:{ left. by destruct mongo. }
  destruct (notifications mongo !! new_notification_oid env) eqn:Hn; simpl.
  - right. eexists mongo, _. split; [done|]. split; [reflexivity|]. simpl.
    split; [by apply Hset|by apply notify_nothing].
  - destruct (10 <=? len (query_text (set doc))); simpl;
      right; eexists mongo, _; (split; [done|]); (split; [reflexivity|]);
      simpl; (split; [by apply Hset|eapply notify_new; [eassumption|reflexivity]]).
Qed.

Lemma assign_query_step env qid user db :
  store_step db (assign_query env qid user db).2.
Proof.
  apply (update_step _ (fun result =>
           {| n_user_id := farmer_id result;
              n_title := "Query Assigned";
              n_message := "Your query has been assigned to an officer";
              n_notification_type := QUERY_ASSIGNED;
              n_query_id := qid;
              n_created_at := utcnow_2nd env;
              n_read := false |})).
  intros qs oid doc Hq. eapply write_assign; [eassumption|reflexivity].
Qed.

Lemma post_reply_step env qid body user db :
  store_step db (post_reply env qid body user db).2.
Proof.
  unfold post_reply. destruct (OfficerReply_valid body); [|by left].
  apply (update_step _ (fun result =>
           {| n_user_id := farmer_id result;
              n_title := if negb (mark_resolved body)
                         then "Officer Replied" else "Query Resolved";
              n_message :=
                "An agricultural officer has responded to your query";
              n_notification_type := if negb (mark_resolved body)
                                     then QUERY_REPLIED else QUERY_RESOLVED;
              n_query_id := qid;
              n_created_at := utcnow_2nd env;
              n_read := false |})).
  intros qs oid doc Hq. eapply write_reply; [eassumption|reflexivity].
Qed.

Lemma get_query_details_reads qid user db :
  (get_query_details qid user db).2 = db.
Proof. rewrite get_query_details_run. by repeat case_match. Qed.

Lemma get_history_reads user st limit db :
  (get_history user st limit db).2 = db.
Proof.
  rewrite get_history_run. destruct (default 50 limit <=? 100); [|done].
  rewrite get_query_history_run. by repeat case_match.
Qed.

Lemma get_statistics_reads user db : (get_statistics user db).2 = db.
Proof.
  destruct db as [[mongo|] mq]; [|done].
  by rewrite (get_statistics_run user _ mongo).
Qed.

(** Every request is a step of the store. *)
Lemma run_call_step c db : store_step db (run_call c db).
Proof.
  destruct c; simpl.
  - apply post_submit_step.
  - apply assign_query_step.
  - apply post_reply_step.
  - left. apply get_query_details_reads.
  - left. apply get_history_reads.
  - left. apply get_statistics_reads.
Qed.

Lemma same_submission_refl d : same_submission d d.
Proof. by repeat split. Qed.

Lemma same_submission_trans d1 d2 d3 :
  same_submission d1 d2 -> same_submission d2 d3 -> same_submission d1 d3.
Proof. unfold same_submission. intuition congruence. Qed.

(** A step keeps what is stored: notifications as they are, queries under
    their id and with the fields of their submission. *)
Lemma store_step_keeps db db' :
  store_step db db' ->
  mock_queries db' = mock_queries db /\
  (forall nid n, stored_notification db nid = Some n ->
                 stored_notification db' nid = Some n) /\
  (forall oid d, stored_query db oid = Some d ->
     exists d', stored_query db' oid = Some d' /\ same_submission d d').
Proof.
  intros [->|(mongo & mongo' & Hc & -> & Hq & Hn)].
  { split; [done|]. split; [done|]. intros oid d Hd. exists d.
    split; [done|apply same_submission_refl]. }
  unfold stored_notification, stored_query. rewrite Hc. simpl.
  split; [done|]. split.
  - intros nid n Hnid. destruct Hn as [->|nid' n' Hfresh ->]; [done|].
    rewrite lookup_insert_ne; [done|]. intros ->. congruence.
  - intros oid d Hd.
    destruct Hq as [->|oid' doc Hfresh _ _ ->|oid' doc officer now Hold ->
                   |oid' doc r now Hold ->].
    + exists d. split; [done|apply same_submission_refl].
    + exists d. rewrite lookup_insert_ne by (intros ->; congruence).
      split; [done|apply same_submission_refl].
    + destruct (decide (oid' = oid)) as [->|Hne].
      * rewrite lookup_insert_eq. eexists. split; [done|].
        assert (doc = d) as -> by congruence. by repeat split.
      * rewrite lookup_insert_ne by done. exists d.
        split; [done|apply same_submission_refl].
    + destruct (decide (oid' = oid)) as [->|Hne].
      * rewrite lookup_insert_eq. eexists. split; [done|].
        assert (doc = d) as -> by congruence. by repeat split.
      * rewrite lookup_insert_ne by done. exists d.
        split; [done|apply same_submission_refl].
Qed.

(** X6.  The store only grows.  Whatever requests are made to the query
    routes, a notification once stored stays as it is, and a query once
    stored stays under its id with the fields of its submission (owner,
    name, text, place, crop, category, urgency, attachments, creation time
    and [officer_name]) unchanged; [mock_queries] is never written. *)
Theorem store_only_grows :
  forall (calls : list route_call) (database : Database),
    mock_queries (run_calls calls database) = mock_queries database /\
    (forall (nid : string) (n : NotificationDoc),
       stored_notification database nid = Some n ->
       stored_notification (run_calls calls database) nid = Some n) /\
    (forall (oid : string) (d : QueryDoc),
       stored_query database oid = Some d ->
       exists d' : QueryDoc,
         stored_query (run_calls calls database) oid = Some d' /\
         same_submission d d').
Proof.
  intros calls. induction calls as [|c calls IH]; intros db.
  - split; [done|]. split; [done|]. intros oid d Hd. exists d.
    split; [done|apply same_submission_refl].
  - simpl. destruct (store_step_keeps db (run_call c db) (run_call_step c db))
      as (Hm & Hn & Hq).
    destruct (IH (run_call c db)) as (Hm' & Hn' & Hq').
    split; [congruence|]. split; [auto|].
    intros oid d Hd. destruct (Hq oid d Hd) as (d1 & Hd1 & Hs1).
    destruct (Hq' oid d1 Hd1) as (d2 & Hd2 & Hs2).
    exists d2. split; [done|]. by eapply same_submission_trans.
Qed.

Lemma store_step_consistent db db' :
  store_step db db' -> assignment_consistent db -> assignment_consistent db'.
Proof.
  intros [->|(mongo & mongo' & Hc & -> & Hq & _)] Hinv; [done|].
  intros oid d. unfold stored_query. simpl.
  assert (Hold : forall oid d, queries mongo !! oid = Some d ->
            (status d = OPEN -> assigned_to d = None) /\
            (status d = ASSIGNED -> is_Some (assigned_to d))).
  { intros oid0 d0 H0. apply (Hinv oid0 d0). unfold stored_query.
    by rewrite Hc. }
  destruct Hq as [->|oid' doc Hfresh Hst Has ->|oid' doc officer now Hdoc ->
                 |oid' doc r now Hdoc ->].
  - apply Hold.
  - destruct (decide (oid' = oid)) as [->|Hne].
    + rewrite lookup_insert_eq. intros [= <-]. split; [done|].
      rewrite Hst. done.
    + rewrite lookup_insert_ne by done. apply Hold.
  - destruct (decide (oid' = oid)) as [->|Hne].
    + rewrite lookup_insert_eq. intros [= <-]. simpl. split; [done|eauto].
    + rewrite lookup_insert_ne by done. apply Hold.
  - destruct (decide (oid' = oid)) as [->|Hne].
    + rewrite lookup_insert_eq. intros [= <-]. simpl.
      destruct (Hold _ _ Hdoc) as [Ho Ha].
      destruct (mark_resolved r); [done|]. done.
    + rewrite lookup_insert_ne by done. apply Hold.
Qed.

(** X7.  The query routes keep the status and the assignee of every
    stored query in step: an [open] query has no assignee, an [assigned]
    one has.  This holds in a store with nothing in it and after any
    sequence of requests to a store where it holds. *)
Theorem assignment_stays_consistent :
  forall calls : list route_call,
    assignment_consistent (run_calls calls empty_database) /\
    forall database : Database,
      assignment_consistent database ->
      assignment_consistent (run_calls calls database).
Proof.
  assert (Hind : forall calls db,
            assignment_consistent db ->
            assignment_consistent (run_calls calls db)).
  { induction calls as [|c calls IH]; intros db Hdb; [done|].
    simpl. apply IH. eapply store_step_consistent; [apply run_call_step|done]. }
  intros calls. split; [|by apply Hind].
  apply Hind. intros oid d. unfold stored_query, empty_database. simpl.
  by rewrite lookup_empty.
Qed.

Lemma store_step_none_closed db db' :
  store_step db db' -> none_closed db -> none_closed db'.
Proof.
  intros [->|(mongo & mongo' & Hc & -> & Hq & _)] Hinv; [done|].
  intros oid d. unfold stored_query. simpl.
  assert (Hold : forall oid d, queries mongo !! oid = Some d ->
            status d <> CLOSED).
  { intros oid0 d0 H0. apply (Hinv oid0 d0). unfold stored_query.
    by rewrite Hc. }
  destruct Hq as [->|oid' doc Hfresh Hst Has ->|oid' doc officer now Hdoc ->
                 |oid' doc r now Hdoc ->].
  - apply Hold.
  - destruct (decide (oid' = oid)) as [->|Hne].
    + rewrite lookup_insert_eq. intros [= <-]. by rewrite Hst.
    + rewrite lookup_insert_ne by done. apply Hold.
  - destruct (decide (oid' = oid)) as [->|Hne].
    + rewrite lookup_insert_eq. by intros [= <-].
    + rewrite lookup_insert_ne by done. apply Hold.
  - destruct (decide (oid' = oid)) as [->|Hne].
    + rewrite lookup_insert_eq. intros [= <-]. simpl.
      destruct (mark_resolved r); [done|]. by apply (Hold oid doc).
    + rewrite lookup_insert_ne by done. apply Hold.
Qed.

(** X8.  No query route closes a query: starting from a store with
    nothing in it, whatever requests are made, no stored query is ever in
    status [closed]; and requests never close a query of a store that had
    none closed. *)
Theorem no_route_closes_a_query :
  forall calls : list route_call,
    none_closed (run_calls calls empty_database) /\
    forall database : Database,
      none_closed database -> none_closed (run_calls calls database).
Proof.
  assert (Hind : forall calls db,
            none_closed db -> none_closed (run_calls calls db)).
  { induction calls as [|c calls IH]; intros db Hdb; [done|].
    simpl. apply IH. eapply store_step_none_closed; [apply run_call_step|done]. }
  intros calls. split; [|by apply Hind].
  apply Hind. intros oid d. unfold stored_query, empty_database. simpl.
  by rewrite lookup_empty.
Qed.

Lemma count_where_empty p : count_where p ∅ = 0.
Proof. unfold count_where. by rewrite map_filter_empty, map_size_empty. Qed.

(** Counting after a document went in under an unused id. *)
Lemma count_where_insert_fresh p qs oid d :
  qs !! oid = None ->
  count_where p (<[oid := d]> qs)
  = count_where p qs + (if p d then 1 else 0).
Proof.
  intros Hfresh. unfold count_where. rewrite map_filter_insert. simpl.
  destruct (p d) eqn:Hp.
  - rewrite decide_True by done.
    rewrite map_size_insert_None; [lia|].
    apply map_lookup_filter_None. by left.
  - rewrite decide_False by done.
    rewrite map_filter_delete, map_size_delete_None; [lia|].
    apply map_lookup_filter_None. by left.
Qed.

(** Counting after the document under an id was rewritten. *)
Lemma count_where_update p qs oid d0 d :
  qs !! oid = Some d0 ->
  count_where p (<[oid := d]> qs)
  = count_where p qs - (if p d0 then 1 else 0) + (if p d then 1 else 0).
Proof.
  intros Hold.
  rewrite <- (insert_delete_eq qs oid d).
  rewrite <- (insert_delete_id qs oid d0 Hold) at 2.
  rewrite !count_where_insert_fresh by apply lookup_delete_eq. lia.
Qed.

(** The counts of a collection: every query is in one of the four
    statuses, and a query counted as urgent is not resolved. *)
Lemma counts_partition (qs : gmap string QueryDoc) :
  Z.of_nat (size qs)
  = count_where (is_status OPEN) qs + count_where (is_status ASSIGNED) qs
    + count_where (is_status RESOLVED) qs + count_where (is_status CLOSED) qs
  /\ count_where (fun d => bool_decide (urgency d = HIGH)
                           && negb (bool_decide (status d = RESOLVED))) qs
     <= Z.of_nat (size qs) - count_where (is_status RESOLVED) qs.
Proof.
  induction qs as [|oid d qs Hfresh [IH1 IH2]] using map_ind.
  - rewrite map_size_empty, !count_where_empty. lia.
  - rewrite map_size_insert_None by done.
    rewrite !count_where_insert_fresh by done. unfold is_status in *.
    repeat case_bool_decide; simpl; try congruence; try lia.
    all: destruct (status d) eqn:?; congruence.
Qed.

(** X9.  The counts [get_statistics] returns add up: [total] is [open]
    plus [assigned] plus [resolved] plus the number of [closed] queries,
    which are counted in [total] only; and [urgent], the queries of [high]
    urgency that are not resolved, is at most [total - resolved]. *)
Theorem statistics_counts_add_up :
  forall (current_user : CurrentUser) (database : Database)
         (st : Statistics),
    (get_statistics current_user database).1 = Ok st ->
    total st
    = open st + assigned st + resolved st
      + count_where (is_status CLOSED) (stored_queries database) /\
    0 <= urgent st <= total st - resolved st.
Proof.
  intros user db st. unfold stored_queries.
  destruct (client db) as [mongo|] eqn:Hc.
  - rewrite (get_statistics_run user db mongo Hc). intros [= <-]. simpl.
    destruct (counts_partition (queries mongo)) as [H1 H2].
    split; [exact H1|]. split; [apply count_where_le|exact H2].
  - destruct db as [cl mq]. simpl in Hc. subst cl. done.
Qed.

Lemma stored_queries_lookup db oid :
  stored_queries db !! oid = stored_query db oid.
Proof.
  unfold stored_queries, stored_query. by destruct (client db).
Qed.

(** The counts [get_statistics] reads off a store that is there. *)
Lemma get_statistics_counts user db :
  is_Some (client db) ->
  exists st : Statistics,
    (get_statistics user db).1 = Ok st /\
    total st = Z.of_nat (size (stored_queries db)) /\
    open st = count_where (is_status OPEN) (stored_queries db) /\
    assigned st = count_where (is_status ASSIGNED) (stored_queries db) /\
    resolved st = count_where (is_status RESOLVED) (stored_queries db).
Proof.
  intros [mongo Hc]. unfold stored_queries. rewrite Hc.
  rewrite (get_statistics_run user db mongo Hc). eexists. by split.
Qed.

(** X10.  The statistics follow a submit: once a request has been
    accepted and stored, [total] and [open] are one more than before and
    [assigned] and [resolved] are what they were. *)
Theorem statistics_after_submit :
  forall (env : Env) (body : QueryCreate) (current_user officer : CurrentUser)
         (database : Database),
    10 <= len (qc_query_text body) ->
    is_Some (client database) ->
    stored_query database (new_query_oid env) = None ->
    stored_notification database (new_notification_oid env) = None ->
    exists st st' : Statistics,
      (get_statistics officer database).1 = Ok st /\
      (get_statistics officer
         (post_submit env body current_user database).2).1 = Ok st' /\
      total st' = total st + 1 /\
      open st' = open st + 1 /\
      assigned st' = assigned st /\
      resolved st' = resolved st.
Proof.
  intros env body user officer db Hlen [mongo Hc] Hq Hn.
  unfold stored_query in Hq. unfold stored_notification in Hn.
  rewrite Hc in Hq, Hn.
  destruct (submit_query_run env body user db mongo Hc Hq Hn Hlen)
    as (resp & doc & n & Hrun & _ & (Hst & _) & _).
  unfold post_submit, QueryCreate_valid. rewrite min_length_true by done.
  rewrite Hrun. simpl.
  destruct (get_statistics_counts officer db) as (st & Hs & Ht & Ho & Ha & Hr);
    [by eexists|].
  destruct (get_statistics_counts officer
              (with_mongo db
                 {| queries := <[new_query_oid env := doc]> (queries mongo);
                    notifications :=
                      <[new_notification_oid env := n]> (notifications mongo) |}))
    as (st' & Hs' & Ht' & Ho' & Ha' & Hr'); [by eexists|].
  exists st, st'. split; [done|]. split; [done|].
  rewrite Ht', Ho', Ha', Hr', Ht, Ho, Ha, Hr.
  unfold stored_queries. rewrite Hc. simpl.
  rewrite map_size_insert_None by done.
  rewrite !count_where_insert_fresh by done.
  unfold is_status. rewrite Hst. simpl. lia.
Qed.

(** Counting after the store rewrote one query. *)
Lemma stored_queries_rewritten db db' oid d d' :
  stored_query db oid = Some d ->
  stored_query db' oid = Some d' ->
  (forall oid', oid' <> oid -> stored_query db' oid' = stored_query db oid') ->
  stored_queries db' = <[oid := d']> (stored_queries db).
Proof.
  intros Hd Hd' Hother. apply map_eq. intros k.
  rewrite stored_queries_lookup.
  destruct (decide (k = oid)) as [->|Hne].
  - by rewrite lookup_insert_eq.
  - rewrite lookup_insert_ne by done. rewrite stored_queries_lookup. auto.
Qed.

Lemma stored_query_client db oid d :
  stored_query db oid = Some d -> is_Some (client db).
Proof. unfold stored_query. destruct (client db); [eauto|done]. Qed.

(** X11.  The statistics follow the transitions: assigning an [open]
    query moves one from [open] to [assigned], and a reply with
    [mark_resolved] to an [assigned] query moves one from [assigned] to
    [resolved]; [total] stays in both cases. *)
Theorem statistics_after_assign_and_resolve :
  forall (env : Env) (qid : string) (body : OfficerReply)
         (current_user : CurrentUser) (database : Database)
         (oid : string) (doc : QueryDoc),
    ObjectId_parse qid = Some oid ->
    stored_query database oid = Some doc ->
    stored_notification database (new_notification_oid env) = None ->
    10 <= len (query_text doc) ->
    exists st : Statistics,
      (get_statistics current_user database).1 = Ok st /\
      (status doc = OPEN ->
       exists st' : Statistics,
         (get_statistics current_user
            (assign_query env qid current_user database).2).1 = Ok st' /\
         total st' = total st /\ open st' = open st - 1 /\
         assigned st' = assigned st + 1 /\ resolved st' = resolved st) /\
      (status doc = ASSIGNED -> mark_resolved body = true ->
       exists st' : Statistics,
         (get_statistics current_user
            (reply_to_query env qid body current_user database).2).1
         = Ok st' /\
         total st' = total st /\ open st' = open st /\
         assigned st' = assigned st - 1 /\ resolved st' = resolved st + 1).
Proof.
  intros env qid body user db oid doc Hp Hq Hn Hlen.
  destruct (get_statistics_counts user db) as (st & Hs & Ht & Ho & Ha & Hr);
    [by eapply stored_query_client|].
  exists st. split; [done|]. split.
  - intros Hst.
    destruct (assign_query_run env qid user db oid doc Hp Hq Hn Hlen)
      as (db' & n & Hrun & Hq' & Hother & _).
    rewrite Hrun. simpl.
    destruct (get_statistics_counts user db')
      as (st' & Hs' & Ht' & Ho' & Ha' & Hr');
      [by eapply stored_query_client|].
    exists st'. split; [done|].
    rewrite Ht', Ho', Ha', Hr', Ht, Ho, Ha, Hr.
    rewrite (stored_queries_rewritten db db' oid _ _ Hq Hq' Hother).
    rewrite <- stored_queries_lookup in Hq.
    rewrite map_size_insert_Some by eauto.
    rewrite !(count_where_update _ _ _ _ _ Hq).
    unfold is_status. simpl. rewrite Hst. simpl. lia.
  - intros Hst Hres.
    destruct (reply_to_query_run env qid body user db oid doc Hp Hq Hn Hlen)
      as (db' & n & Hrun & Hq' & Hother & _).
    rewrite Hrun. simpl.
    destruct (get_statistics_counts user db')
      as (st' & Hs' & Ht' & Ho' & Ha' & Hr');
      [by eapply stored_query_client|].
    exists st'. split; [done|].
    rewrite Ht', Ho', Ha', Hr', Ht, Ho, Ha, Hr.
    rewrite (stored_queries_rewritten db db' oid _ _ Hq Hq' Hother).
    rewrite <- stored_queries_lookup in Hq.
    rewrite map_size_insert_Some by eauto.
    rewrite !(count_where_update _ _ _ _ _ Hq).
    unfold is_status. simpl. rewrite Hst, Hres. simpl. lia.
Qed.

Lemma add_wire_nil e ws : add_wire e ws [] = e.
Proof. destruct e. unfold add_wire. simpl. by rewrite app_nil_r. Qed.

Lemma add_wire_app e ws l1 l2 :
  add_wire (add_wire e ws l1) ws l2 = add_wire e ws (l1 ++ l2)%list.
Proof. unfold add_wire. simpl. by rewrite fmap_app, app_assoc. Qed.

Lemma ws_send_json_run ws v e :
  ws ∉ closed (world e) ->
  ws_send_json ws v e = (Ok tt, add_wire e ws [v]).
Proof. intros H. unfold ws_send_json. by rewrite decide_False. Qed.

(** One text on an open socket: the replies go out, and only a value
    that is not an object makes the body raise. *)
Lemma handle_text_run ws text e :
  ws ∉ closed (world e) ->
  handle_text ws text e
  = (if survivable text then Ok tt else Raise AttributeError,
     add_wire e ws (replies_to text)).
Proof.
  intros Hopen. destruct text as [message|]; simpl.
  - destruct message; simpl; try (by rewrite add_wire_nil).
    unfold bind, message_get, ret. simpl.
    destruct (equals_str (dict_get "type" members) "ping").
    + by apply ws_send_json_run.
    + destruct (equals_str (dict_get "type" members) "subscribe").
      * by apply ws_send_json_run.
      * by rewrite add_wire_nil.
  - by apply ws_send_json_run.
Qed.

(** One turn of the loop on an open socket. *)
Lemma serve_text ws u text incoming e :
  ws ∉ closed (world e) ->
  serve ws u (recv_text text :: incoming) e
  = if survivable text
    then serve ws u incoming (add_wire e ws (replies_to text))
    else hang_up ws u (add_wire e ws (replies_to text)).
Proof.
  intros Hopen. simpl. unfold bind at 1. unfold try_except.
  unfold bind at 1. rewrite handle_text_run by done.
  destruct (survivable text); [reflexivity|].
  unfold hang_up, bind, on_manager, ret. simpl.
  by destruct (disconnect ws u (world e)) as [[?|?] ?].
Qed.

Lemma serve_disconnect ws u incoming e :
  serve ws u (recv_disconnect :: incoming) e = hang_up ws u e.
Proof.
  simpl. unfold hang_up, bind, on_manager, ret.
  by destruct (disconnect ws u (world e)) as [[?|?] ?].
Qed.

(** The loop on an open socket: it sends the replies to the texts it
    handled, to this socket, and either is waiting for more, the manager
    untouched, or has called [disconnect] once and is over. *)
Lemma serve_run ws u incoming e :
  ws ∉ closed (world e) ->
  exists sent : list json,
    serve ws u incoming e = (Ok Waiting, add_wire e ws sent) \/
    serve ws u incoming e = hang_up ws u (add_wire e ws sent).
Proof.
  revert e. induction incoming as [|[text|] incoming IH]; intros e Hopen.
  - exists []. left. simpl. unfold ret. by rewrite add_wire_nil.
  - rewrite serve_text by done. destruct (survivable text).
    + destruct (IH (add_wire e ws (replies_to text)) Hopen) as [sent Hs].
      exists (replies_to text ++ sent)%list.
      by rewrite add_wire_app in Hs.
    + exists (replies_to text). by right.
  - exists []. right. by rewrite serve_disconnect, add_wire_nil.
Qed.

(** X12.  [broadcast] never raises and sends the message to exactly the
    open connections found under any user; what [broadcast_to_officers]
    sends is part of it. *)
Theorem broadcast_reaches_all_open :
  forall (message : Message) (w : World),
  exists frames officer_frames : list (WebSocket * Message),
    broadcast message w = (Ok tt, push w frames) /\
    broadcast_to_officers message w = (Ok tt, push w officer_frames) /\
    (forall (ws : WebSocket) (m : Message),
       (ws, m) ∈ frames <->
       (m = message /\ (ws ∉ closed w) /\
        exists (u : string) (conns : list WebSocket),
          active_connections w !! u = Some conns /\ ws ∈ conns)) /\
    (forall f : WebSocket * Message, f ∈ officer_frames -> f ∈ frames).
Proof.
  intros message w. eexists _, _.
  split; [apply broadcast_run|]. split; [apply broadcast_to_officers_run|].
  split.
  - intros ws m. rewrite elem_of_frames_to_entries. split.
    + intros (-> & Hcl & u & conns & Hin & _ & Hws).
      apply elem_of_map_to_list in Hin. naive_solver.
    + intros (-> & Hcl & u & conns & Hin & Hws).
      apply elem_of_map_to_list in Hin. naive_solver.
  - intros [ws m]. rewrite !elem_of_frames_to_entries.
    intros (-> & Hcl & u & conns & Hin & _ & Hws).
    split; [done|]. split; [done|]. by exists u, conns.
Qed.

(** X13.  A connection whose token does not decode, or decodes to a
    payload with no [sub] or an empty one, is closed with code 1008 and
    reason "Invalid token": nothing is registered, nothing is sent, and
    what the peer sends is never read. *)
Theorem handshake_rejects_bad_token :
  forall (decoded : option Payload) (websocket : WebSocket)
         (incoming : list received) (e : Endpoint),
    match decoded with
    | None => True
    | Some payload => sub payload = None \/ sub payload = Some ""
    end ->
    websocket_notifications decoded websocket incoming e
    = (Ok Returned,
       {| world := world e;
          wire := wire e;
          closes := (closes e ++ [(websocket, 1008, "Invalid token")])%list |}).
Proof.
  intros [payload|] ws incoming e H; [|reflexivity].
  unfold websocket_notifications. by destruct H as [-> | ->].
Qed.

Lemma handshake_rejects_bad_token_witness :
  websocket_notifications
    (Some {| sub := Some ""; token_role := Some "officer" |}) 9%nat
    [recv_text (text_json (JObject [("type", JString "ping")]))]
    (new_endpoint sample_world)
  = (Ok Returned,
     {| world := sample_world;
        wire := [];
        closes := [(9%nat, 1008, "Invalid token")] |}).
Proof.
  apply (handshake_rejects_bad_token
           (Some {| sub := Some ""; token_role := Some "officer" |}) 9%nat
           [recv_text (text_json (JObject [("type", JString "ping")]))]
           (new_endpoint sample_world)).
  by right.
Defined.

(** Removing from a list the socket just appended to it. *)
Lemma list_remove_app_fresh ws l :
  ws ∉ l -> list_remove ws (l ++ [ws]) = Some l.
Proof.
  induction l as [|y l IH]; intros Hnot; simpl.
  - by rewrite decide_True.
  - apply not_elem_of_cons in Hnot as [Hne Hnot].
    rewrite decide_False by done. by rewrite IH.
Qed.

Lemma with_connections_same w : with_connections w (active_connections w) = w.
Proof. by destruct w. Qed.

(** Unregistering the socket just registered. *)
Lemma disconnect_after_connect ws u w :
  no_empty_entry w ->
  ws ∉ default [] (active_connections w !! u) ->
  disconnect ws u (connect ws u w).2 = (Ok tt, w).
Proof.
  intros Hinv Hnot. rewrite connect_run. simpl.
  rewrite disconnect_run. simpl. rewrite lookup_insert_eq.
  rewrite list_remove_app_fresh by done.
  destruct (active_connections w !! u) as [[|c cs]|] eqn:Hu; simpl.
  - by destruct (Hinv u [] Hu).
  - f_equal. unfold with_connections. simpl.
    rewrite insert_insert_eq, insert_id by done. by destruct w.
  - f_equal. unfold with_connections. simpl.
    rewrite delete_insert_eq, delete_id by done. by destruct w.
Qed.

(** X14.  [disconnect] undoes [connect]: for a socket that was not yet in
    the user's list, registering it and unregistering it again, both
    calls returning normally, leaves the manager exactly as it was. *)
Theorem disconnect_undoes_connect :
  forall (websocket : WebSocket) (user_id : string) (w : World),
    no_empty_entry w ->
    websocket ∉ default [] (active_connections w !! user_id) ->
    (connect websocket user_id ;; disconnect websocket user_id) w
    = (Ok tt, w).
Proof.
  intros ws u w Hinv Hnot.
  pose proof (disconnect_after_connect ws u w Hinv Hnot) as Hd.
  unfold bind. rewrite connect_run in *. exact Hd.
Qed.

(** X15.  [disconnect] for a socket that is not registered: when the
    user has no entry it does nothing and returns; when the user has
    other connections, [list.remove] raises [ValueError].  The manager is
    as it was in both cases. *)
Theorem disconnect_of_unregistered_socket :
  forall (websocket : WebSocket) (user_id : string) (w : World),
    match active_connections w !! user_id with
    | None => disconnect websocket user_id w = (Ok tt, w)
    | Some conns =>
        websocket ∉ conns ->
        disconnect websocket user_id w = (Raise ValueError, w)
    end.
Proof.
  intros ws u w. rewrite disconnect_run.
  destruct (active_connections w !! u) as [conns|]; [|done].
  intros Hnot.
  assert (Hr : list_remove ws conns = None).
  { induction conns as [|y l IH]; simpl; [done|].
    apply not_elem_of_cons in Hnot as [Hne Hnot].
    rewrite decide_False by done. by rewrite IH. }
  by rewrite Hr.
Qed.

(** The handshake with a token that names a user. *)
Lemma websocket_notifications_accepts payload uid ws incoming e :
  sub payload = Some uid -> uid <> "" ->
  websocket_notifications (Some payload) ws incoming e
  = (on_manager (connect ws uid) ;;
     ws_send_json ws (welcome uid (token_role payload)) ;;
     serve ws uid incoming) e.
Proof.
  intros Hsub Hne. unfold websocket_notifications. rewrite Hsub.
  by destruct uid.
Qed.

(** X16.  The life of a connection on an open socket, for a token that
    names a user under whom the socket is not yet registered.  The
    handler never raises and closes nothing; everything it sends goes to
    this socket, the welcome frame first; the manager's outbox is not
    touched.  As long as the handler waits for the next text the socket is
    the last of the user's connections; once it has returned, the
    manager's dictionary is exactly what it was before the connection. *)
Theorem connection_life_cycle :
  forall (payload : Payload) (user_id : string) (websocket : WebSocket)
         (incoming : list received) (w : World),
    sub payload = Some user_id -> user_id <> "" ->
    websocket ∉ closed w ->
    no_empty_entry w ->
    websocket ∉ default [] (active_connections w !! user_id) ->
    exists (s : session) (e' : Endpoint) (sent : list json),
      websocket_notifications (Some payload) websocket incoming
        (new_endpoint w) = (Ok s, e') /\
      closes e' = [] /\
      outbox (world e') = outbox w /\
      closed (world e') = closed w /\
      wire e' = (websocket, welcome user_id (token_role payload))
                :: ((fun v => (websocket, v)) <$> sent) /\
      active_connections (world e')
      = match s with
        | Waiting =>
            <[user_id := (default [] (active_connections w !! user_id)
                          ++ [websocket])%list]> (active_connections w)
        | Returned => active_connections w
        end.
Proof.
  intros payload uid ws incoming w Hsub Hne Hopen Hinv Hnot.
  rewrite (websocket_notifications_accepts _ uid) by done.
  unfold bind at 1. unfold on_manager at 1. simpl.
  pose proof (disconnect_after_connect ws uid w Hinv Hnot) as Hd.
  rewrite connect_run in *. simpl in *.
  set (w1 := with_connections w _) in *.
  unfold bind at 1. rewrite ws_send_json_run by done.
  set (e1 := add_wire _ _ _).
  destruct (serve_run ws uid incoming e1) as [sent [Hs|Hs]]; [done|..];
    rewrite Hs.
  - exists Waiting, (add_wire e1 ws sent), sent. by repeat split.
  - unfold hang_up. simpl. rewrite Hd. simpl.
    eexists Returned, _, sent. by repeat split.
Qed.

Lemma connection_life_cycle_witness :
  exists (s : session) (e' : Endpoint) (sent : list json),
    websocket_notifications
      (Some {| sub := Some "officer_1"; token_role := Some "officer" |})
      7%nat
      [recv_text (text_json (JObject [("type", JString "ping")]));
       recv_text text_invalid_json;
       recv_disconnect]
      (new_endpoint sample_world) = (Ok s, e') /\
    closes e' = [] /\
    outbox (world e') = outbox sample_world /\
    closed (world e') = closed sample_world /\
    wire e' = (7%nat, welcome "officer_1" (Some "officer"))
              :: ((fun v => (7%nat, v)) <$> sent) /\
    active_connections (world e')
    = match s with
      | Waiting =>
          <[ "officer_1" :=
               (default [] (active_connections sample_world !! "officer_1")
                ++ [7%nat])%list]> (active_connections sample_world)
      | Returned => active_connections sample_world
      end.
Proof.
  apply (connection_life_cycle
           {| sub := Some "officer_1"; token_role := Some "officer" |}
           "officer_1" 7%nat _ sample_world).
  - reflexivity.
  - discriminate.
  - change (closed sample_world) with (∅ : gset WebSocket).
    apply not_elem_of_empty.
  - apply run_ops_no_empty_entry. intros u conns. unfold new_world. simpl.
    by rewrite lookup_empty.
  - change (active_connections sample_world !! "officer_1")
      with (Some [1%nat]). simpl.
    intros H. apply list_elem_of_singleton in H. discriminate H.
Defined.

(** X17.  The two kinds of bad text are not treated alike.  A text that
    is not JSON gets an [error] frame and the loop goes on to the next
    text.  A text that is JSON but not an object gets no reply and ends
    the connection: [message.get] raises, the handler calls [disconnect]
    and returns, and the texts after it are never read. *)
Theorem bad_text_handling :
  forall (websocket : WebSocket) (user_id : string) (v : json)
         (rest : list received) (e : Endpoint),
    websocket ∉ closed (world e) ->
    serve websocket user_id (recv_text text_invalid_json :: rest) e
    = serve websocket user_id rest
        (add_wire e websocket
           [JObject [("type", JString "error");
                     ("message", JString "Invalid JSON")]]) /\
    (not_an_object v ->
     serve websocket user_id (recv_text (text_json v) :: rest) e
     = hang_up websocket user_id e).
Proof.
  intros ws u v rest e Hopen. rewrite !serve_text by done. split; [done|].
  intros Hv. destruct v; simpl in *; try done; by rewrite add_wire_nil.
Qed.

Lemma bad_text_handling_witness :
  serve 3%nat "farmer_7"
    [recv_text (text_json (JArray []));
     recv_text (text_json (JObject [("type", JString "ping")]))]
    (new_endpoint sample_world)
  = hang_up 3%nat "farmer_7" (new_endpoint sample_world) /\
  active_connections (hang_up 3%nat "farmer_7" (new_endpoint sample_world)).2.(world)
    !! "farmer_7" = None.
Proof.
  split; [|reflexivity].
  assert (Hopen : 3%nat ∉ closed (world (new_endpoint sample_world))).
  { change (closed (world (new_endpoint sample_world)))
      with (∅ : gset WebSocket).
    apply not_elem_of_empty. }
  apply (proj2 (bad_text_handling 3%nat "farmer_7" (JArray []) _
                  (new_endpoint sample_world) Hopen)).
  exact I.
Defined.

(** X18.  When the welcome frame cannot be sent (the peer is gone
    already), the handler dies on that send, outside its [try]: the
    socket has been registered and nothing unregisters it. *)
Theorem failed_welcome_leaves_socket_registered :
  forall (payload : Payload) (user_id : string) (websocket : WebSocket)
         (incoming : list received) (e : Endpoint),
    sub payload = Some user_id -> user_id <> "" ->
    websocket ∈ closed (world e) ->
    exists (e' : Endpoint) (conns : list WebSocket),
      websocket_notifications (Some payload) websocket incoming e
      = (Raise SendFailure, e') /\
      active_connections (world e') !! user_id = Some conns /\
      websocket ∈ conns /\
      wire e' = wire e /\ closes e' = closes e.
Proof.
  intros payload uid ws incoming e Hsub Hne Hdead.
  rewrite (websocket_notifications_accepts _ uid) by done.
  unfold bind at 1. unfold on_manager at 1.
  rewrite connect_run. unfold bind at 1. unfold ws_send_json.
  rewrite decide_True by done.
  eexists _, _. split; [reflexivity|]. simpl.
  rewrite lookup_insert_eq. split; [done|].
  split; [|done]. apply elem_of_app. right. by left.
Qed.

Lemma failed_welcome_leaves_socket_registered_witness :
  exists (e' : Endpoint) (conns : list WebSocket),
    websocket_notifications
      (Some {| sub := Some "farmer_7"; token_role := Some "farmer" |})
      5%nat [recv_disconnect] (new_endpoint (new_world {[ 5%nat ]}))
    = (Raise SendFailure, e') /\
    active_connections (world e') !! "farmer_7" = Some conns /\
    5%nat ∈ conns /\
    wire e' = [] /\ closes e' = [].
Proof.
  apply (failed_welcome_leaves_socket_registered
           {| sub := Some "farmer_7"; token_role := Some "farmer" |}
           "farmer_7" 5%nat [recv_disconnect]
           (new_endpoint (new_world {[ 5%nat ]}))).
  - reflexivity.
  - discriminate.
  - simpl. by apply elem_of_singleton.
Defined.

Lemma get_query_details_access_witness :
  (get_query_details sample_notification_oid sample_farmer sample_history).1
  = Raise (HTTPException HTTP_403_FORBIDDEN "Access denied") /\
  exists (oid : string) (doc : QueryDoc),
    ObjectId_parse sample_query_oid = Some oid /\
    stored_query sample_history oid = Some doc /\
    response_of_doc sample_query_oid
      (sample_doc_of (user_id sample_farmer) 10 OPEN)
    = response_of_doc oid doc /\
    (role sample_farmer = "farmer" -> farmer_id doc = user_id sample_farmer).
Proof.
  split.
  - apply (proj2 (proj2 (get_query_details_access sample_notification_oid
                           sample_farmer sample_history))
             sample_notification_oid
             (sample_doc_of "65a1b2c3d4e5f60718290009" 20 OPEN)).
    + reflexivity.
    + reflexivity.
    + reflexivity.
    + discriminate.
  - apply (proj1 (proj2 (get_query_details_access sample_query_oid
                           sample_farmer sample_history))).
    reflexivity.
Defined.

Lemma history_visibility_witness :
  Forall (fun r =>
            (exists doc : QueryDoc,
               stored_query sample_history (r_id r) = Some doc /\
               r = response_of_doc (r_id r) doc) /\
            (role sample_farmer = "farmer" ->
             r_farmer_id r = user_id sample_farmer) /\
            (forall s : QueryStatus,
               role sample_farmer = "officer" ->
               Some OPEN = Some s -> r_status r = s))
    [response_of_doc sample_other_oid
       (sample_doc_of (user_id sample_farmer) 30 RESOLVED);
     response_of_doc sample_query_oid
       (sample_doc_of (user_id sample_farmer) 10 OPEN)] /\
  get_history sample_farmer (Some OPEN) None sample_history
  = get_history sample_farmer None None sample_history.
Proof.
  split.
  - apply (proj1 (proj2 (history_visibility sample_farmer (Some OPEN) None
                           sample_history))).
    vm_compute. reflexivity.
  - apply (proj2 (proj2 (history_visibility sample_farmer (Some OPEN) None
                           sample_history))).
    reflexivity.
Defined.

Lemma history_order_and_bound_witness :
  get_history sample_officer_A None (Some 101) sample_history
  = (Raise RequestValidationError, sample_history) /\
  StronglySorted (fun a b => r_created_at b <= r_created_at a)
    [response_of_doc sample_other_oid
       (sample_doc_of (user_id sample_farmer) 30 RESOLVED);
     response_of_doc sample_notification_oid
       (sample_doc_of "65a1b2c3d4e5f60718290009" 20 OPEN)] /\
  NoDup [sample_other_oid; sample_notification_oid] /\
  2 <= 2 <= 100.
Proof.
  split.
  - apply (proj1 (history_order_and_bound sample_officer_A None (Some 101)
                    sample_history)).
    reflexivity.
  - apply (proj2 (history_order_and_bound sample_officer_A None (Some 2)
                    sample_history)
             [response_of_doc sample_other_oid
                (sample_doc_of (user_id sample_farmer) 30 RESOLVED);
              response_of_doc sample_notification_oid
                (sample_doc_of "65a1b2c3d4e5f60718290009" 20 OPEN)]).
    vm_compute. reflexivity.
Defined.

Lemma history_complete_witness :
  response_of_doc sample_query_oid
    (sample_doc_of (user_id sample_farmer) 10 OPEN)
  ∈ [response_of_doc sample_other_oid
       (sample_doc_of (user_id sample_farmer) 30 RESOLVED);
     response_of_doc sample_query_oid
       (sample_doc_of (user_id sample_farmer) 10 OPEN)].
Proof.
  apply (history_complete sample_farmer None None sample_history).
  - vm_compute. reflexivity.
  - vm_compute. discriminate.
  - reflexivity.
  - reflexivity.
Defined.

Lemma store_only_grows_witness :
  exists d' : QueryDoc,
    stored_query
      (run_calls sample_calls
         (sample_database {[ sample_query_oid := sample_doc OPEN None ]}))
      sample_query_oid = Some d' /\
    same_submission (sample_doc OPEN None) d'.
Proof.
  apply (proj2 (proj2 (store_only_grows sample_calls
                         (sample_database
                            {[ sample_query_oid := sample_doc OPEN None ]})))).
  reflexivity.
Defined.

Lemma sample_database_consistent :
  assignment_consistent
    (sample_database {[ sample_query_oid := sample_doc OPEN None ]}).
Proof.
  intros oid doc. unfold stored_query, sample_database. simpl.
  intros [<- <-]%lookup_singleton_Some. split; [done|]. discriminate.
Defined.

Lemma assignment_stays_consistent_witness :
  assignment_consistent
    (run_calls sample_calls
       (sample_database {[ sample_query_oid := sample_doc OPEN None ]})).
Proof.
  apply (proj2 (assignment_stays_consistent sample_calls)).
  exact sample_database_consistent.
Defined.

Lemma sample_database_none_closed :
  none_closed (sample_database {[ sample_query_oid := sample_doc OPEN None ]}).
Proof.
  intros oid doc. unfold stored_query, sample_database. simpl.
  intros [<- <-]%lookup_singleton_Some. discriminate.
Defined.

Lemma no_route_closes_a_query_witness :
  none_closed
    (run_calls sample_calls
       (sample_database {[ sample_query_oid := sample_doc OPEN None ]})).
Proof.
  apply (proj2 (no_route_closes_a_query sample_calls)).
  exact sample_database_none_closed.
Defined.

Lemma statistics_counts_add_up_witness :
  3 = 2 + 0 + 1
      + count_where (is_status CLOSED) (stored_queries sample_history) /\
  0 <= 2 <= 3 - 1.
Proof.
  apply (statistics_counts_add_up sample_officer_A sample_history
           {| total := 3; open := 2; assigned := 0; resolved := 1;
              urgent := 2; resolution_rate := 33.33 |}).
  vm_compute. reflexivity.
Defined.

Lemma statistics_after_submit_witness :
  exists st st' : Statistics,
    (get_statistics sample_officer_A (sample_database ∅)).1 = Ok st /\
    (get_statistics sample_officer_A
       (post_submit sample_env (sample_body "Leaves are curling")
          sample_farmer (sample_database ∅)).2).1 = Ok st' /\
    total st' = total st + 1 /\
    open st' = open st + 1 /\
    assigned st' = assigned st /\
    resolved st' = resolved st.
Proof.
  apply (statistics_after_submit sample_env (sample_body "Leaves are curling")
           sample_farmer sample_officer_A (sample_database ∅)).
  - vm_compute. discriminate.
  - eexists. reflexivity.
  - reflexivity.
  - reflexivity.
Defined.

Lemma statistics_after_assign_and_resolve_witness :
  exists st st' : Statistics,
    (get_statistics sample_officer_A
       (sample_database {[ sample_query_oid := sample_doc OPEN None ]})).1
    = Ok st /\
    (get_statistics sample_officer_A
       (assign_query sample_env sample_query_oid sample_officer_A
          (sample_database {[ sample_query_oid := sample_doc OPEN None ]})).2).1
    = Ok st' /\
    total st' = total st /\ open st' = open st - 1 /\
    assigned st' = assigned st + 1 /\ resolved st' = resolved st.
Proof.
  destruct (statistics_after_assign_and_resolve sample_env sample_query_oid
              (sample_reply true) sample_officer_A
              (sample_database {[ sample_query_oid := sample_doc OPEN None ]})
              sample_query_oid (sample_doc OPEN None))
    as (st & Hs & Hassign & _).
  - reflexivity.
  - reflexivity.
  - reflexivity.
  - vm_compute. discriminate.
  - destruct (Hassign eq_refl) as (st' & Hs' & H).
    exists st, st'. split; [exact Hs|]. split; [exact Hs'|exact H].
Defined.

Lemma sample_world_no_empty_entry : no_empty_entry sample_world.
Proof.
  apply run_ops_no_empty_entry. intros u conns. unfold new_world. simpl.
  by rewrite lookup_empty.
Defined.

Lemma disconnect_undoes_connect_witness :
  (connect 7%nat "officer_1" ;; disconnect 7%nat "officer_1") sample_world
  = (Ok tt, sample_world).
Proof.
  apply (disconnect_undoes_connect 7%nat "officer_1" sample_world).
  - exact sample_world_no_empty_entry.
  - change (active_connections sample_world !! "officer_1")
      with (Some [1%nat]). simpl.
    intros H. apply list_elem_of_singleton in H. discriminate H.
Defined.

Lemma disconnect_of_unregistered_socket_witness :
  disconnect 7%nat "nobody" sample_world = (Ok tt, sample_world) /\
  disconnect 7%nat "officer_1" sample_world = (Raise ValueError, sample_world).
Proof.
  split.
  - exact (disconnect_of_unregistered_socket 7%nat "nobody" sample_world).
  - pose proof (disconnect_of_unregistered_socket 7%nat "officer_1"
                  sample_world) as Hd.
    change (active_connections sample_world !! "officer_1")
      with (Some [1%nat]) in Hd.
    apply Hd. intros H. apply list_elem_of_singleton in H. discriminate H.
Defined.

(* ===================================================================== *)
(** ** Properties of the account routes *)
(* ===================================================================== *)

(** [find_one] finds nothing exactly when no document has the phone. *)
Lemma find_one_by_phone_None coll phone :
  find_one_by_phone coll phone = None <->
  forall k d, user_docs coll !! k = Some d -> ud_phone d <> phone.
Proof.
  unfold find_one_by_phone. rewrite head_None, map_to_list_empty_iff.
  rewrite map_empty_filter. unfold map_Forall. simpl. done.
Qed.

(** What [find_one] returns is a stored document with the phone. *)
Lemma find_one_by_phone_Some coll phone k d :
  find_one_by_phone coll phone = Some (k, d) ->
  user_docs coll !! k = Some d /\ ud_phone d = phone.
Proof.
  unfold find_one_by_phone. intros H.
  apply head_Some_elem_of, elem_of_map_to_list in H.
  by apply map_lookup_filter_Some in H.
Qed.



(** [login_user] looks the account up and decides on what it finds. *)
Lemma login_user_run sec credentials db :
  login_user sec credentials db
  = login_with sec credentials (find_account db (ul_phone credentials)) db.
Proof.
  unfold login_user, find_account, get_users_collection, bind, get, ret.
  by destruct (users db).
Qed.

Lemma UserResponse_new_state {S} sec r (s : S) :
  (UserResponse_new sec r s).2 = s.
Proof. unfold UserResponse_new. by case_match. Qed.

Lemma login_with_reads sec credentials found db :
  (login_with sec credentials found db).2 = db.
Proof.
  unfold login_with. destruct found as [[k d]|]; [|done].
  repeat (case_match; [done|]). unfold bind.
  pose proof (UserResponse_new_state (S:=Accounts) sec
                (user_response_of k d) db) as Hs.
  destruct (UserResponse_new _ _ _) as [[?|?] ?]; simpl in *; by subst.
Qed.

(** X19.  A phone number registers once.  When an account with the phone
    of the request exists, in [mock_users] when there is no store and in
    [db.users] when there is one, [register_user] answers 400 "Phone
    number already registered" and stores nothing. *)
Theorem register_rejects_known_phone :
  forall (sec : Security) (env : AuthEnv) (user : UserCreate)
         (database : Accounts) (k : string) (d : UserDoc),
    ud_phone d = uc_phone user ->
    match users database with
    | None => (k, d) ∈ mock_users database
    | Some coll => user_docs coll !! k = Some d
    end ->
    register_user sec env user database
    = (Raise (HTTPException HTTP_400_BAD_REQUEST
                "Phone number already registered"),
       database).
Proof.
  intros sec env user db k d Hphone Hin.
  unfold register_user, get_users_collection, bind, get, ret.
  destruct (users db) as [coll|] eqn:Hu.
  - destruct (find_one_by_phone coll (uc_phone user)) as [found|] eqn:Hf;
      [done|].
    rewrite find_one_by_phone_None in Hf. by destruct (Hf k d Hin).
  - assert (He : existsb
                   (fun kv => String.eqb (ud_phone kv.2) (uc_phone user))
                   (mock_users db) = true).
    { apply existsb_exists. exists (k, d). split.
      - by apply list_elem_of_In.
      - simpl. by apply String.eqb_eq. }
    by rewrite He.
Qed.

Lemma UserResponse_new_ok {S} sec r r' (s s' : S) :
  UserResponse_new sec r s = (Ok r', s') ->
  r' = r /\ s' = s /\ UserResponse_new sec r s = (Ok r, s).
Proof.
  unfold UserResponse_new.
  destruct (_ && _); unfold ret, raise; [|done]. by intros [= <- <-].
Qed.




(** X21.  [login_user] stores nothing.  It gives one and the same answer,
    401 "Invalid credentials", when no account has the phone and when the
    password is wrong for the account that has it; only a caller who has
    the password right is told that the role is wrong. *)
Theorem login_answers :
  forall (sec : Security) (credentials : UserLogin) (database : Accounts),
    (login_user sec credentials database).2 = database /\
    (find_account database (ul_phone credentials) = None ->
     (login_user sec credentials database).1
     = Raise (HTTPException HTTP_401_UNAUTHORIZED "Invalid credentials")) /\
    (forall (k : string) (d : UserDoc),
       find_account database (ul_phone credentials) = Some (k, d) ->
       (verify_password sec (ul_password credentials) (ud_hashed_password d)
        = false ->
        (login_user sec credentials database).1
        = Raise (HTTPException HTTP_401_UNAUTHORIZED "Invalid credentials")) /\
       ((login_user sec credentials database).1
        = Raise (HTTPException HTTP_401_UNAUTHORIZED
                   "Invalid role for this account") ->
        verify_password sec (ul_password credentials) (ud_hashed_password d)
        = true /\ ud_role d <> ul_role credentials)).
Proof.
  intros sec cred db. rewrite login_user_run.
  split; [apply login_with_reads|]. split.
  - by intros ->.
  - intros k d ->. unfold login_with. split.
    + by intros ->.
    + destruct (verify_password sec _ _); simpl; [|done].
      case_bool_decide; simpl; [|done].
      destruct (ud_is_active d); simpl; [|done].
      unfold bind. cbn [fst].
      pose proof (UserResponse_new_ok (S:=Accounts) sec
                    (user_response_of k d)) as Hok.
      unfold UserResponse_new in *. by destruct (_ && _).
Qed.

Lemma dict_set_fresh {V} key (v : V) (l : list (string * V)) :
  key ∉ l.*1 -> dict_set key v l = (l ++ [(key, v)])%list.
Proof.
  induction l as [|[k x] l IH]; simpl; [done|].
  intros [Hne Hnot]%not_elem_of_cons.
  destruct (String.eqb k key) eqn:Hk.
  - apply String.eqb_eq in Hk. congruence.
  - by rewrite IH.
Qed.


(** [str(n + 1)] is none of [str(1)], ..., [str(n)]. *)
Lemma str_next_fresh n : str (n + 1) ∉ str <$> seq 1 n.
Proof.
  intros (i & Heq & Hin)%list_elem_of_fmap.
  apply (inj pretty) in Heq. apply elem_of_seq in Hin. lia.
Qed.

(** What a registration leaves in [mock_users]. *)
Lemma register_user_mock_users sec env u db :
  mock_users (register_user sec env u db).2 = mock_users db \/
  (users db = None /\
   existsb (fun kv => String.eqb (ud_phone kv.2) (uc_phone u)) (mock_users db)
   = false /\
   mock_users (register_user sec env u db).2
   = dict_set (str (length (mock_users db) + 1)) (user_doc_of sec env u)
       (mock_users db)).
Proof.
  unfold register_user, get_users_collection, bind, get, ret, put, raise.
  destruct db as [[coll|] mock]; cbn [users mock_users].
  - left. destruct (find_one_by_phone coll (uc_phone u)); [done|].
    unfold users_insert_one. cbn [users mock_users].
    destruct (bool_decide _ || _); [done|].
    pose proof (UserResponse_new_state (S:=Accounts) sec) as Hs.
    match goal with
    | |- context [UserResponse_new sec ?r ?s] =>
        specialize (Hs r s); destruct (UserResponse_new sec r s) as [[?|?] ?]
    end; simpl in *; by subst.
  - destruct (existsb _ mock) eqn:Hnone; [by left|]. right.
    split; [done|]. split; [done|].
    pose proof (UserResponse_new_state (S:=Accounts) sec) as Hs.
    match goal with
    | |- context [UserResponse_new sec ?r ?s] =>
        specialize (Hs r s); destruct (UserResponse_new sec r s) as [[?|?] ?]
    end; simpl in *; by subst.
Qed.

Lemma register_user_numbered sec env u db :
  mock_users_numbered db ->
  mock_users_numbered (register_user sec env u db).2.
Proof.
  intros [Hkeys Hphones]. unfold mock_users_numbered.
  destruct (register_user_mock_users sec env u db) as [->|(_ & Hnone & ->)];
    [done|].
  rewrite dict_set_fresh by (rewrite Hkeys; apply str_next_fresh).
  rewrite !fmap_app, length_app. simpl.
  rewrite seq_app, fmap_app. simpl. split.
  - by rewrite <- Hkeys, Nat.add_comm.
  - apply NoDup_app. split; [done|]. split; [|apply NoDup_singleton].
    intros p Hp ->%list_elem_of_singleton.
    apply list_elem_of_fmap in Hp as ([k d] & Hd & Hin). simpl in Hd.
    assert (existsb (fun kv => String.eqb (ud_phone kv.2) (uc_phone u))
              (mock_users db) = true); [|congruence].
    apply existsb_exists. exists (k, d). split; [by apply list_elem_of_In|].
    simpl. apply String.eqb_eq. by rewrite <- Hd.
Qed.

(** X22.  Without a store, accounts get the ids [str(1)], [str(2)], ... in
    the order of their registration, and no two accounts share a phone:
    starting with nobody registered, whatever registrations are asked for,
    the keys of [mock_users] are [str(1)], ..., [str(n)] for its [n]
    entries.  So the id [str(n + 1)] of the next account is never one that
    is taken, and a registration never overwrites an account. *)
Theorem mock_ids_are_numbered :
  forall (sec : Security) (requests : list (AuthEnv * UserCreate)),
    mock_users_numbered (register_all sec requests no_accounts) /\
    forall database : Accounts,
      mock_users_numbered database ->
      mock_users_numbered (register_all sec requests database).
Proof.
  intros sec requests.
  assert (Hind : forall db, mock_users_numbered db ->
                   mock_users_numbered (register_all sec requests db)).
  { induction requests as [|[env u] requests IH]; intros db Hdb; [done|].
    simpl. apply IH. by apply register_user_numbered. }
  split; [|exact Hind]. apply Hind. split; [done|]. simpl. constructor.
Qed.


Lemma register_rejects_known_phone_witness :
  register_user sample_security sample_auth_env sample_user
    (register_user sample_security sample_auth_env sample_user no_accounts).2
  = (Raise (HTTPException HTTP_400_BAD_REQUEST
              "Phone number already registered"),
     (register_user sample_security sample_auth_env sample_user no_accounts).2).
Proof.
  apply (register_rejects_known_phone sample_security sample_auth_env
           sample_user _ "1"
           (user_doc_of sample_security sample_auth_env sample_user)).
  - reflexivity.
  - vm_compute. by left.
Defined.


Lemma login_answers_witness :
  (login_user sample_security
     {| ul_phone := "9876543210"; ul_password := "wrong-one";
        ul_role := OFFICER |}
     (register_user sample_security sample_auth_env sample_user no_accounts).2).1
  = Raise (HTTPException HTTP_401_UNAUTHORIZED "Invalid credentials") /\
  (login_user sample_security
     {| ul_phone := "0000000000"; ul_password := "secret1";
        ul_role := OFFICER |}
     (register_user sample_security sample_auth_env sample_user no_accounts).2).1
  = Raise (HTTPException HTTP_401_UNAUTHORIZED "Invalid credentials").
Proof.
  split.
  - apply (proj1 (proj2 (proj2 (login_answers sample_security
             {| ul_phone := "9876543210"; ul_password := "wrong-one";
                ul_role := OFFICER |}
             (register_user sample_security sample_auth_env sample_user
                no_accounts).2))
             "1" (user_doc_of sample_security sample_auth_env sample_user)
             ltac:(vm_compute; reflexivity))).
    reflexivity.
  - apply (proj1 (proj2 (login_answers sample_security
             {| ul_phone := "0000000000"; ul_password := "secret1";
                ul_role := OFFICER |}
             (register_user sample_security sample_auth_env sample_user
                no_accounts).2))).
    reflexivity.
Defined.

Lemma mock_ids_are_numbered_witness :
  mock_users_numbered
    (register_all sample_security
       [(sample_auth_env, sample_user)]
       {| users := None;
          mock_users :=
            [("1", user_doc_of sample_security sample_auth_env
                     {| uc_name := "Ramesh"; uc_email := None;
                        uc_phone := "9000000001"; uc_role := FARMER;
                        uc_password := "secret2"; uc_location := None;
                        uc_department := None |})] |}).
Proof.
  apply (proj2 (mock_ids_are_numbered sample_security
                  [(sample_auth_env, sample_user)])).
  split.
  - reflexivity.
  - simpl. apply NoDup_singleton.
Defined.

